(** * Research Scholar Agent: a shallow embedding of the retrieval,
      deduplication, ranking and synthesis pipeline.

    Modelling conventions.
    - A Python [str] is a Rocq [string], one character per code.  The model
      is exact on ASCII text, where a code is a code point.  Codes from 128
      on stand for the bytes of non-ASCII text: they are neither whitespace
      nor [a-z0-9] and [str.lower()] leaves them alone, so that
      [normalize_title] turns each of them into a separator.
    - A Python [set] of strings is a [gset string].
    - A Python [int] is a [Z]; [None] is [None]; a [dict] whose iteration
      order matters is an association list in insertion order.
    - Python floats are read as exact numbers: a quotient of two integers is
      a [Q], an expression that calls [math.exp] is an [R].  The test
      [inter / union >= 0.9] has the same outcome on doubles as on [Q] for
      sets of fewer than 10^15 tokens; the rounding of the score is not
      modelled.
    - Exceptions are the [Raise] case of an error monad; the network and the
      process environment are fields of a [World] record. *)

From Stdlib Require Import ZArith QArith Reals Lra Lia.
From Stdlib Require Import Ascii String List Permutation Sorted DecimalString.
From stdpp Require Import gmap strings list sorting.

Set Default Proof Using "Type".
Local Open Scope string_scope.
Local Open Scope list_scope.

(** ** utils/text.py *)

Module Text.

Definition code (c : ascii) : nat := nat_of_ascii c.

(** [a-z0-9] *)
Definition is_alnum_lc (c : ascii) : bool :=
  let n := code c in
  ((97 <=? n) && (n <=? 122) || (48 <=? n) && (n <=? 57))%nat.

(** [\s] on a [str] pattern, and the characters [str.strip()] removes:
    TAB, LF, VT, FF, CR, the separators FS, GS, RS, US, and the space. *)
Definition is_space (c : ascii) : bool :=
  let n := code c in
  ((9 <=? n) && (n <=? 13) || (28 <=? n) && (n <=? 32))%nat.

Definition is_upper (c : ascii) : bool :=
  let n := code c in ((65 <=? n) && (n <=? 90))%nat.

Definition lower_char (c : ascii) : ascii :=
  if is_upper c then ascii_of_nat (code c + 32) else c.

Fixpoint map_chars (f : ascii -> ascii) (s : string) : string :=
  match s with
  | EmptyString => EmptyString
  | String c s' => String (f c) (map_chars f s')
  end.

(** [text.lower()] *)
Definition lower (s : string) : string := map_chars lower_char s.

Definition space : ascii := " "%char.

(** [_PUNCT_RE.sub(" ", text)] with [_PUNCT_RE = [^a-z0-9\s]] *)
Definition PUNCT_RE_sub (s : string) : string :=
  map_chars (fun c => if is_alnum_lc c || is_space c then c else space) s.

(** [_WS_RE.sub(" ", text)] with [_WS_RE = \s+]: every maximal run of
    whitespace becomes one space.  [in_ws] tells that the previous character
    belonged to the run being replaced. *)
Fixpoint WS_RE_sub_from (in_ws : bool) (s : string) : string :=
  match s with
  | EmptyString => EmptyString
  | String c s' =>
      if is_space c
      then if in_ws then WS_RE_sub_from true s'
           else String space (WS_RE_sub_from true s')
      else String c (WS_RE_sub_from false s')
  end.

Definition WS_RE_sub (s : string) : string := WS_RE_sub_from false s.

(** [s.lstrip(chars)] and [s.rstrip(chars)], the set of characters given
    as a predicate. *)
Fixpoint lstrip_by (p : ascii -> bool) (s : string) : string :=
  match s with
  | EmptyString => EmptyString
  | String c s' => if p c then lstrip_by p s' else s
  end.

Fixpoint rstrip_by (p : ascii -> bool) (s : string) : string :=
  match s with
  | EmptyString => EmptyString
  | String c s' =>
      match rstrip_by p s' with
      | EmptyString => if p c then EmptyString else String c EmptyString
      | r => String c r
      end
  end.

(** [text.strip()]: whitespace goes from both ends. *)
Definition strip (s : string) : string :=
  rstrip_by is_space (lstrip_by is_space s).

(** [s[:n]] for [n >= 0]. *)
Fixpoint str_take (n : nat) (s : string) : string :=
  match n, s with
  | S n', String c s' => String c (str_take n' s')
  | _, _ => EmptyString
  end.

Definition normalize_title (text : string) : string :=
  let text := lower text in
  let text := PUNCT_RE_sub text in
  let text := WS_RE_sub text in
  strip text.

(** [text.split(sep)] for a one-character separator: every occurrence cuts,
    so empty pieces appear between adjacent separators and the empty string
    splits into one empty piece. *)
Fixpoint split (sep : ascii) (s : string) : list string :=
  match s with
  | EmptyString => [EmptyString]
  | String c s' =>
      if Ascii.eqb c sep then EmptyString :: split sep s'
      else match split sep s' with
           | w :: ws => String c w :: ws
           | [] => [String c EmptyString]
           end
  end.

Definition nonempty (t : string) : bool :=
  match t with EmptyString => false | _ => true end.

(** [set([t for t in normalize_title(text).split(" ") if t])] *)
Definition tokenize (text : string) : gset string :=
  list_to_set (List.filter nonempty (split space (normalize_title text))).

(** [jaccard_similarity]; the arguments are already sets at every call of
    the repository, so [set(a_tokens)] is the identity. *)
Definition jaccard_similarity (a_tokens b_tokens : gset string) : Q :=
  let a := a_tokens in
  let b := b_tokens in
  if bool_decide (a = ∅) && bool_decide (b = ∅) then 1%Q
  else if bool_decide (a = ∅) || bool_decide (b = ∅) then 0%Q
  else
    let inter := size (a ∩ b) in
    let union := size (a ∪ b) in
    (Z.of_nat inter # Pos.of_nat union)%Q.

End Text.

(** ** Python values *)

Module Py.

(** Truthiness of an [Optional[str]]: [None] and the empty string are
    falsy. *)
Definition truthy_str (o : option string) : bool :=
  match o with
  | Some s => Text.nonempty s
  | None => false
  end.

(** Truthiness of an [Optional[int]]: [None] and [0] are falsy. *)
Definition truthy_int (o : option Z) : bool :=
  match o with
  | Some z => negb (z =? 0)%Z
  | None => false
  end.

(** [o or d] on an [Optional[str]] with a string default. *)
Definition str_or (o : option string) (d : string) : string :=
  match o with
  | Some s => if Text.nonempty s then s else d
  | None => d
  end.

(** [o or d] on an [Optional[int]] with an integer default. *)
Definition int_or (o : option Z) (d : Z) : Z :=
  match o with
  | Some z => if (z =? 0)%Z then d else z
  | None => d
  end.

(** [str(n)] for an [int]. *)
Definition str_of_int (z : Z) : string := NilZero.string_of_int (Z.to_int z).

(** [sep.join(parts)] *)
Fixpoint join (sep : string) (parts : list string) : string :=
  match parts with
  | [] => ""
  | [s] => s
  | s :: rest => s +:+ sep +:+ join sep rest
  end.

(** [l[:k]] for any integer [k]: a negative bound counts from the end. *)
Definition slice_to {A} (k : Z) (l : list A) : list A :=
  if (0 <=? k)%Z then take (Z.to_nat k) l
  else take (length l - Z.to_nat (- k)) l.

(** [enumerate(l, start)] *)
Fixpoint enumerate {A} (start : nat) (l : list A) : list (nat * A) :=
  match l with
  | [] => []
  | x :: l' => (start, x) :: enumerate (S start) l'
  end.

(** A [dict] with string keys in insertion order. *)
Definition dict (V : Type) : Type := list (string * V).

Fixpoint dict_get {V} (k : string) (d : dict V) : option V :=
  match d with
  | [] => None
  | (k', v) :: d' => if String.eqb k k' then Some v else dict_get k d'
  end.

(** [d[k] = v]: an existing key keeps its position, a new key goes last. *)
Fixpoint dict_set {V} (k : string) (v : V) (d : dict V) : dict V :=
  match d with
  | [] => [(k, v)]
  | (k', v') :: d' =>
      if String.eqb k k' then (k', v) :: d' else (k', v') :: dict_set k v d'
  end.

(** [list(d.values())] *)
Definition dict_values {V} (d : dict V) : list V := map snd d.

Definition dict_keys {V} (d : dict V) : list string := map fst d.

(** Exceptions, by the class the code distinguishes: all of them are caught
    by [except Exception]. *)
Inductive exn : Type :=
  | RuntimeError (msg : string)
  | ValidationError (msg : string)
  | HTTPError (msg : string).

Definition exn_msg (e : exn) : string :=
  match e with
  | RuntimeError m | ValidationError m | HTTPError m => m
  end.

Inductive result (A : Type) : Type :=
  | Ok (a : A)
  | Raise (e : exn).
Arguments Ok {A} a.
Arguments Raise {A} e.

Definition bind {A B} (r : result A) (k : A -> result B) : result B :=
  match r with
  | Ok a => k a
  | Raise e => Raise e
  end.

(** [try: r  except Exception as e: h e] *)
Definition try_except {A} (r : result A) (h : exn -> A) : A :=
  match r with
  | Ok a => a
  | Raise e => h e
  end.

End Py.

(** ** schemas.py *)

Module Paper.
Record t : Type := mk {
  source : string;
  id : option string;
  title : string;
  abstract : string;
  authors : list string;
  year : option Z;
  url : string;
  pdf_url : option string;
  doi : option string;
  venue : option string
}.
End Paper.

Module Citation.
Record t : Type := mk {
  index : Z;
  title : string;
  authors : list string;
  year : option Z;
  doi : option string;
  url : string;
  source : string
}.
End Citation.

Module ResearchRequest.
(** No validator is attached to any field: [top_k] is any integer or
    absent. *)
Record t : Type := mk {
  query : string;
  top_k : option Z;
  provider : option string
}.
End ResearchRequest.

Module ResearchResponse.
Record t : Type := mk {
  query : string;
  report_markdown : string;
  citations : list Citation.t;
  num_sources : Z;
  selected : list Paper.t
}.
End ResearchResponse.

(** A record as a source client returns it, before validation.  The two
    clients fill every key; [title] and [url] may come out as [None]
    ([entry.get("id")], a missing JSON field), which the [Paper]
    constructor rejects because both fields are declared [str]. *)
Module RawItem.
Record t : Type := mk {
  source : string;
  id : option string;
  title : option string;
  abstract : string;
  authors : list string;
  year : option Z;
  url : option string;
  pdf_url : option string;
  doi : option string;
  venue : option string
}.
End RawItem.

(** The validating constructor of [Paper], applied to the keys of [item]. *)
Definition Paper_validate (item : RawItem.t) : Py.result Paper.t :=
  match RawItem.title item, RawItem.url item with
  | Some t, Some u =>
      Py.Ok (Paper.mk (RawItem.source item) (RawItem.id item) t
               (RawItem.abstract item) (RawItem.authors item)
               (RawItem.year item) u (RawItem.pdf_url item)
               (RawItem.doi item) (RawItem.venue item))
  | None, _ => Py.Raise (Py.ValidationError "title: input should be a valid string")
  | _, None => Py.Raise (Py.ValidationError "url: input should be a valid string")
  end.

(** ** config.py *)

Module AppSettings.
Record t : Type := mk {
  default_llm_provider : option string;
  openai_api_key : option string;
  together_api_key : option string;
  ollama_base_url : string;
  crossref_mailto : string;
  max_results_per_source : Z;
  top_k_synthesis : Z
}.

(** The field defaults, used when the environment sets nothing. *)
Definition default : t :=
  mk None None None "http://localhost:11434" "your-email@example.com" 25 10.
End AppSettings.

(** ** llm/providers.py: messages and the outside world *)

Module ChatMessage.
Record t : Type := mk { role : string; content : string }.
End ChatMessage.

(** What one chat call sends: the chosen model, the messages, the
    temperature and the optional token limit. *)
Module ChatRequest.
Record t : Type := mk {
  model : string;
  messages : list ChatMessage.t;
  temperature : Q;
  max_tokens : option Z
}.
End ChatRequest.

(** The shapes of [resp.json()] that [OllamaProvider.generate] tells apart:
    a dict with a ["message"] key (whose ["content"] may be missing), a list
    of chunks (each with an optional message content), anything else. *)
Inductive OllamaData : Type :=
  | DataMessage (content : option string)
  | DataChunks (contents : list (option string))
  | DataOther.

(** Everything the program reads from outside itself: the settings
    [get_settings()] caches, whether [from openai import AsyncOpenAI]
    succeeded, and the outcome of each network call. *)
Module World.
Record t : Type := mk {
  settings : AppSettings.t;
  AsyncOpenAI : bool;
  (** [search_arxiv(query, max_results)] and [search_crossref(query, rows)] *)
  search_arxiv : string -> Z -> Py.result (list RawItem.t);
  search_crossref : string -> Z -> Py.result (list RawItem.t);
  (** [resp.choices[0].message.content] of the chat-completion call made
      with the given key *)
  openai_create : string -> ChatRequest.t -> Py.result (option string);
  (** [data["choices"][0]["message"]["content"]] of the POST made with the
      given key to the given URL *)
  together_post : string -> string -> ChatRequest.t -> Py.result string;
  (** [resp.json()] of the POST to the given URL *)
  ollama_post : string -> ChatRequest.t -> Py.result OllamaData
}.
End World.

Module Providers.

Inductive LLMProvider : Type :=
  | OpenAI (api_key default_model : string)
  | Together (api_key default_model base_url : string)
  | Ollama (default_model base_url : string).

(** [OpenAIProvider.__init__] *)
Definition OpenAIProvider (w : World.t) : Py.result LLMProvider :=
  let settings := World.settings w in
  match AppSettings.openai_api_key settings with
  | Some key =>
      if Text.nonempty key then
        if World.AsyncOpenAI w then Py.Ok (OpenAI key "gpt-4o-mini")
        else Py.Raise (Py.RuntimeError "openai package not available")
      else Py.Raise (Py.RuntimeError "OPENAI_API_KEY is not set")
  | None => Py.Raise (Py.RuntimeError "OPENAI_API_KEY is not set")
  end.

(** [TogetherProvider.__init__] *)
Definition TogetherProvider (w : World.t) : Py.result LLMProvider :=
  let settings := World.settings w in
  match AppSettings.together_api_key settings with
  | Some key =>
      if Text.nonempty key then
        Py.Ok (Together key "meta-llama/Meta-Llama-3.1-8B-Instruct-Turbo"
                 "https://api.together.xyz/v1/chat/completions")
      else Py.Raise (Py.RuntimeError "TOGETHER_API_KEY is not set")
  | None => Py.Raise (Py.RuntimeError "TOGETHER_API_KEY is not set")
  end.

(** [OllamaProvider.__init__]: no check, no credential. *)
Definition OllamaProvider (w : World.t) : Py.result LLMProvider :=
  let settings := World.settings w in
  Py.Ok (Ollama "llama3.1"
           (Text.rstrip_by (Ascii.eqb "/"%char) (AppSettings.ollama_base_url settings))).

(** [model or self._default_model] *)
Definition chosen_model (model : option string) (default_model : string) : string :=
  Py.str_or model default_model.

(** The three [generate] methods. *)
Definition generate (w : World.t) (llm : LLMProvider)
    (messages : list ChatMessage.t) (model : option string)
    (temperature : Q) (max_tokens : option Z) : Py.result string :=
  match llm with
  | OpenAI key default_model =>
      let req := ChatRequest.mk (chosen_model model default_model) messages
                   temperature max_tokens in
      Py.bind (World.openai_create w key req)
        (fun content => Py.Ok (Py.str_or content ""))
  | Together key default_model base_url =>
      let req := ChatRequest.mk (chosen_model model default_model) messages
                   temperature max_tokens in
      World.together_post w key base_url req
  | Ollama default_model base_url =>
      let url := base_url +:+ "/api/chat" in
      let req := ChatRequest.mk (chosen_model model default_model) messages
                   temperature max_tokens in
      Py.bind (World.ollama_post w url req)
        (fun data =>
           match data with
           | DataMessage content =>
               Py.Ok (match content with Some c => c | None => "" end)
           | DataChunks contents =>
               Py.Ok (String.concat ""
                        (flat_map (fun c => match c with Some x => [x] | None => [] end)
                           contents))
           | DataOther => Py.Ok ""
           end)
  end.

(** [preferred or settings.default_llm_provider] *)
Definition resolve_choice (w : World.t) (preferred : option string) : option string :=
  if Py.truthy_str preferred then preferred
  else AppSettings.default_llm_provider (World.settings w).

(** [get_default_llm_provider]: the debug log lines written on the way, and
    the provider or the exception that escapes. *)
Definition get_default_llm_provider (w : World.t) (preferred : option string)
  : list string * Py.result LLMProvider :=
  let choice := resolve_choice w preferred in
  let named :=
    match choice with
    | Some c =>
        if Text.nonempty c then
          let c := Text.lower c in
          if String.eqb c "openai" then Some (OpenAIProvider w)
          else if String.eqb c "together" then Some (TogetherProvider w)
          else if String.eqb c "ollama" then Some (OllamaProvider w)
          else None
        else None
    | None => None
    end in
  match named with
  | Some r => ([], r)
  | None =>
      match OpenAIProvider w with
      | Py.Ok p => ([], Py.Ok p)
      | Py.Raise e =>
          let log1 := "OpenAI provider not available: " +:+ Py.exn_msg e in
          match TogetherProvider w with
          | Py.Ok p => ([log1], Py.Ok p)
          | Py.Raise e' =>
              let log2 := "Together provider not available: " +:+ Py.exn_msg e' in
              ([log1; log2], OllamaProvider w)
          end
      end
  end.

End Providers.

(** ** A stable descending sort

    [list.sort(key=..., reverse=True)] is stable: elements with equal keys
    keep their order.  On a total preorder of keys that fixes the result
    (lemma [sort_desc_unique] below), so the insertion sort returns the list
    the library sort returns.  [lt_key x y] says that the key of [x] is
    strictly below the key of [y]. *)

Section StableSort.
Context {A : Type} (lt_key : A -> A -> bool).

(** [x] stood before every element of [l] in the input: it passes only
    the elements whose key is strictly greater. *)
Fixpoint insert_desc (x : A) (l : list A) : list A :=
  match l with
  | [] => [x]
  | y :: l' => if lt_key x y then y :: insert_desc x l' else x :: y :: l'
  end.

Fixpoint sort_desc (l : list A) : list A :=
  match l with
  | [] => []
  | x :: l' => insert_desc x (sort_desc l')
  end.

(** [x] may stand before [y] in a descending list. *)
Definition not_below (x y : A) : Prop := lt_key x y = false.

(** [z] has the key of [a]: neither is below the other. *)
Definition same_key (a z : A) : bool := negb (lt_key z a) && negb (lt_key a z).
End StableSort.

(** ** research.py *)

Module Research.

Definition nl : string := String (ascii_of_nat 10) EmptyString.

(** [retrieve_sources]: [asyncio.gather(..., return_exceptions=True)] hands
    back both outcomes in call order; a raised outcome is skipped, a record
    that fails validation is skipped. *)
Definition retrieve_sources (w : World.t) (query : string) (max_per_source : Z)
  : list Paper.t :=
  let results :=
    [World.search_arxiv w query max_per_source;
     World.search_crossref w query max_per_source] in
  flat_map
    (fun res =>
       match res with
       | Py.Raise _ => []
       | Py.Ok items =>
           flat_map
             (fun item =>
                match Paper_validate item with
                | Py.Ok p => [p]
                | Py.Raise _ => []
                end)
             items
       end)
    results.

(** [p.doi.lower().strip()] *)
Definition doi_key (d : string) : string := Text.strip (Text.lower d).

(** One turn of the first loop of [deduplicate_papers], on the pair
    [(seen_by_doi, without_doi)]. *)
Definition doi_step (st : Py.dict Paper.t * list Paper.t) (p : Paper.t)
  : Py.dict Paper.t * list Paper.t :=
  let '(seen_by_doi, without_doi) := st in
  if Py.truthy_str (Paper.doi p) then
    let key := doi_key (Py.str_or (Paper.doi p) "") in
    match Py.dict_get key seen_by_doi with
    | None => (Py.dict_set key p seen_by_doi, without_doi)
    | Some existing =>
        if (String.length (Paper.abstract existing) <? String.length (Paper.abstract p))%nat
        then (Py.dict_set key p seen_by_doi, without_doi)
        else (seen_by_doi, without_doi)
    end
  else (seen_by_doi, without_doi ++ [p]).

Definition doi_loop (papers : list Paper.t) : Py.dict Paper.t * list Paper.t :=
  fold_left doi_step papers ([], []).

(** [jaccard_similarity(toks, qtoks) >= 0.9] *)
Definition similar (toks qtoks : gset string) : bool :=
  Qle_bool (9 # 10) (Text.jaccard_similarity toks qtoks).

(** The inner loop: some entry of [title_tokens[:i]] is similar. *)
Definition is_dup (title_tokens : list (Paper.t * gset string)) (i : nat)
    (toks : gset string) : bool :=
  existsb (fun qq => similar toks (snd qq)) (take i title_tokens).

(** One turn of the second loop, on [kept]. *)
Definition title_step (title_tokens : list (Paper.t * gset string))
    (kept : list Paper.t) (ip : nat * (Paper.t * gset string)) : list Paper.t :=
  let '(i, (p, toks)) := ip in
  if is_dup title_tokens i toks then kept else kept ++ [p].

Definition deduplicate_papers (papers : list Paper.t) : list Paper.t :=
  let '(seen_by_doi, without_doi) := doi_loop papers in
  let kept := Py.dict_values seen_by_doi in
  let title_tokens := map (fun p => (p, Text.tokenize (Paper.title p))) without_doi in
  fold_left (title_step title_tokens) (Py.enumerate 0 title_tokens) kept.

(** [max(min(year, 2030), 1990)] *)
Definition clamp_year (year : Z) : Z := Z.max (Z.min year 2030) 1990.

Definition relevance (query : string) (paper : Paper.t) : nat :=
  let q_tokens := Text.tokenize query in
  let tokens_title := Text.tokenize (Paper.title paper) in
  let tokens_abs := Text.tokenize (Paper.abstract paper) in
  let match_title := size (q_tokens ∩ tokens_title) in
  let match_abs := size (q_tokens ∩ tokens_abs) in
  match_title * 2 + match_abs * 1.

Definition recency (paper : Paper.t) : R :=
  let year := Py.int_or (Paper.year paper) 1990 in
  (IZR (clamp_year year - 1990) / IZR (2030 - 1990))%R.

Definition score_paper (query : string) (paper : Paper.t) : R :=
  let norm_rel := (1 - exp (- 0.3 * INR (relevance query paper)))%R in
  (0.75 * norm_rel + 0.25 * recency paper)%R.

Definition Rltb (a b : R) : bool := if Rlt_dec a b then true else false.

(** [scored.sort(key=lambda x: x[0], reverse=True)] *)
Definition sort_scored (scored : list (R * Paper.t)) : list (R * Paper.t) :=
  sort_desc (fun x y => Rltb (fst x) (fst y)) scored.

Definition rank_and_select (query : string) (papers : list Paper.t) (top_k : Z)
  : list Paper.t :=
  let scored := map (fun p => (score_paper query p, p)) papers in
  let scored := sort_scored scored in
  map snd (Py.slice_to top_k scored).

(** [p.url or (p.pdf_url or "")] *)
Definition citation_url (p : Paper.t) : string :=
  if Text.nonempty (Paper.url p) then Paper.url p
  else Py.str_or (Paper.pdf_url p) "".

Definition citation_of (idx : nat) (p : Paper.t) : Citation.t :=
  Citation.mk (Z.of_nat idx) (Paper.title p) (Paper.authors p) (Paper.year p)
    (Paper.doi p) (citation_url p) (Paper.source p).

Definition build_citations (selected : list Paper.t) : list Citation.t :=
  map (fun ip => citation_of (fst ip) (snd ip)) (Py.enumerate 1 selected).

(** The record line shared by the prompt and the fallback report. *)
Definition record_line (c : Citation.t) : string :=
  let authors :=
    match Citation.authors c with
    | [] => "Unknown"
    | _ => Py.join ", " (Citation.authors c)
    end in
  "[" +:+ Py.str_of_int (Citation.index c) +:+ "] " +:+ Citation.title c
  +:+ " — " +:+ authors
  +:+ " (" +:+ (if Py.truthy_int (Citation.year c)
                then Py.str_of_int (Py.int_or (Citation.year c) 0) else "n.d.")
  +:+ "); DOI: " +:+ Py.str_or (Citation.doi c) "n/a"
  +:+ "; URL: " +:+ Citation.url c.

Definition instructions : string :=
  "You are Research Scholar Agent, an expert academic writer. "
  +:+ "Write a rigorous, concise, and well-structured report that synthesizes findings across disciplines. "
  +:+ "Use inline numeric citations like [1], [2] whenever you state a claim or refer to a paper. "
  +:+ "Only cite from the provided sources. Do not invent citations. If evidence is limited, state that explicitly. "
  +:+ "Prefer recent and high-quality sources.".

Definition outline : string :=
  "Required sections: 1) Executive Summary; 2) Background & Related Work; 3) Methods (if applicable); "
  +:+ "4) Key Findings & Themes; 5) Cross-Disciplinary Insights; 6) Limitations & Risks; 7) Open Questions; 8) Future Directions; 9) References. "
  +:+ "In References, list each source with its numeric index and full metadata.".

Definition build_synthesis_messages (query : string) (citations : list Citation.t)
  : list ChatMessage.t :=
  let records_block := Py.join nl (map record_line citations) in
  let system :=
    ChatMessage.mk "system"
      ("You are a careful research assistant. Follow instructions exactly. "
       +:+ "Do not fabricate citations. Keep the tone formal and academic.") in
  let user :=
    ChatMessage.mk "user"
      ("Research question: " +:+ query +:+ nl +:+ nl
       +:+ "Sources:" +:+ nl +:+ records_block +:+ nl +:+ nl
       +:+ instructions +:+ nl +:+ outline +:+ nl
       +:+ "Write 800-1200 words.") in
  [system; user].

(** [(p.abstract or p.title).strip()] *)
Definition snippet_of (p : Paper.t) : string :=
  Text.strip (if Text.nonempty (Paper.abstract p) then Paper.abstract p
              else Paper.title p).

(** A bullet of the section Background & Related Work. *)
Definition background_bullet (ip : nat * Paper.t) : string :=
  let '(idx, p) := ip in
  let snippet := snippet_of p in
  "- " +:+ Paper.title p +:+ " [" +:+ Py.str_of_int (Z.of_nat idx) +:+ "]: "
  +:+ Text.str_take 600 snippet
  +:+ (if (600 <? String.length snippet)%nat then "..." else "") +:+ nl.

(** A bullet of the section Key Findings & Themes. *)
Definition finding_bullet (ip : nat * Paper.t) : string :=
  "- Finding linked to [" +:+ Py.str_of_int (Z.of_nat (fst ip))
  +:+ "] derived from its abstract and title." +:+ nl.

(** [selected[: max(3, len(selected) // 3)]] *)
Definition background_papers (selected : list Paper.t) : list Paper.t :=
  take (Nat.max 3 (length selected / 3)) selected.

Definition summary_line (selected : list Paper.t) : string :=
  match selected with
  | _ :: _ =>
      "This report summarizes key findings from the most relevant recent publications on the topic. "
      +:+ "It integrates evidence across sources and highlights areas of consensus and uncertainty." +:+ nl
  | [] => "No sources were retrieved. The summary below is limited." +:+ nl
  end.

(** The list [lines] of [synthesize_fallback] when the function returns. *)
Definition fallback_lines (query : string) (selected : list Paper.t) : list string :=
  let citations := build_citations selected in
  ["# " +:+ query +:+ nl; "## Executive Summary" +:+ nl; summary_line selected]
  ++ ["## Background & Related Work" +:+ nl]
  ++ map background_bullet (Py.enumerate 1 (background_papers selected))
  ++ ["## Key Findings & Themes" +:+ nl]
  ++ map finding_bullet (Py.enumerate 1 (take 5 selected))
  ++ ["## Limitations & Risks" +:+ nl;
      "- This non-LLM fallback uses abstracts and may miss methodological nuance." +:+ nl;
      "## References" +:+ nl]
  ++ map (fun c => record_line c +:+ nl) citations.

Definition synthesize_fallback (query : string) (selected : list Paper.t) : string :=
  Py.join nl (fallback_lines query selected).

(** [synthesize_report]: whatever is raised inside the [try] leads to the
    fallback. *)
Definition synthesize_report (w : World.t) (query : string)
    (selected : list Paper.t) (provider_choice : option string) : string :=
  Py.try_except
    (Py.bind (snd (Providers.get_default_llm_provider w provider_choice))
       (fun llm =>
          let citations := build_citations selected in
          let messages := build_synthesis_messages query citations in
          Providers.generate w llm messages None (2 # 10) None))
    (fun _ => synthesize_fallback query selected).

(** [top_k or settings.top_k_synthesis] *)
Definition top_k_effective (w : World.t) (top_k : option Z) : Z :=
  Py.int_or top_k (AppSettings.top_k_synthesis (World.settings w)).

Definition run_research (w : World.t) (query : string) (top_k : option Z)
    (provider_choice : option string) : ResearchResponse.t :=
  let settings := World.settings w in
  let max_per_source := AppSettings.max_results_per_source settings in
  let top_k_effective := top_k_effective w top_k in
  let all_papers := retrieve_sources w query max_per_source in
  match all_papers with
  | [] =>
      let text := synthesize_report w query [] provider_choice in
      ResearchResponse.mk query text [] 0 []
  | _ :: _ =>
      let unique := deduplicate_papers all_papers in
      let selected := rank_and_select query unique top_k_effective in
      let text := synthesize_report w query selected provider_choice in
      ResearchResponse.mk query text (build_citations selected)
        (Z.of_nat (length selected)) selected
  end.

End Research.

(** ** api.py *)

Module Api.

(** [POST /research]: the body is already a [ResearchRequest]. *)
Definition research_endpoint (w : World.t) (req : ResearchRequest.t)
  : ResearchResponse.t :=
  Research.run_research w (ResearchRequest.query req) (ResearchRequest.top_k req)
    (ResearchRequest.provider req).

End Api.

(** * The vocabulary of the properties *)

(** ** Normal forms of [normalize_title] *)

Module TextSpec.
Import Text.

(** A string in normal form, read from the left: only [a-z0-9] and single
    spaces; [prev] tells that a space may not come next. *)
Fixpoint spaced (prev : bool) (s : string) : bool :=
  match s with
  | EmptyString => true
  | String c s' =>
      if is_space c then Ascii.eqb c space && negb prev && spaced true s'
      else is_alnum_lc c && spaced false s'
  end.

(** The last character, if any, is no whitespace. *)
Fixpoint closed (s : string) : bool :=
  match s with
  | EmptyString => true
  | String c EmptyString => negb (is_space c)
  | String _ s' => closed s'
  end.

End TextSpec.

(** ** Attempts of the provider factory *)

Module ProviderSpec.
Import Providers.

(** The first construction that succeeds, in list order. *)
Fixpoint first_ok {A} (attempts : list (Py.result A)) : option A :=
  match attempts with
  | [] => None
  | Py.Ok a :: _ => Some a
  | Py.Raise _ :: rest => first_ok rest
  end.

(** The log line of each construction that failed before the first
    success. *)
Fixpoint failures_before_ok {A} (attempts : list (string * Py.result A))
  : list string :=
  match attempts with
  | [] => []
  | (_, Py.Ok _) :: _ => []
  | (name, Py.Raise e) :: rest =>
      (name +:+ " provider not available: " +:+ Py.exn_msg e)
        :: failures_before_ok rest
  end.

End ProviderSpec.

(** ** The projection of a paper *)

Module ResponseSpec.
Import Research.

(** The display projection of the paper selected at 1-based position
    [idx]. *)
Definition projection (idx : nat) (p : Paper.t) : Citation.t :=
  {| Citation.index := Z.of_nat idx;
     Citation.title := Paper.title p;
     Citation.authors := Paper.authors p;
     Citation.year := Paper.year p;
     Citation.doi := Paper.doi p;
     Citation.url :=
       match Paper.url p with
       | String _ _ => Paper.url p
       | EmptyString =>
           match Paper.pdf_url p with
           | Some u => u
           | None => EmptyString
           end
       end;
     Citation.source := Paper.source p |}.

End ResponseSpec.

(** ** Score classes *)

Module RankSpec.
Import Research.

(** [a] scores strictly below [b]. *)
Definition lt_score (query : string) (a b : Paper.t) : bool :=
  Rltb (score_paper query a) (score_paper query b).


End RankSpec.

(** ** Token overlaps and the clamp *)

Module ScoreSpec.
Import Research.

(** [|q ∩ t|] and [|q ∩ a|] *)
Definition title_overlap (query : string) (p : Paper.t) : nat :=
  size (Text.tokenize query ∩ Text.tokenize (Paper.title p)).

Definition abstract_overlap (query : string) (p : Paper.t) : nat :=
  size (Text.tokenize query ∩ Text.tokenize (Paper.abstract p)).

(** The year with a missing one read as 1990. *)
Definition year_or_1990 (p : Paper.t) : Z :=
  match Paper.year p with
  | Some y => y
  | None => 1990
  end.

(** [clamp y lo hi] *)
Definition clamp (y lo hi : Z) : Z := Z.max lo (Z.min y hi).

End ScoreSpec.

(** ** Keys, survivors and duplicates *)

Module DedupSpec.
Import Research.

(** A paper goes through the DOI phase when its [doi] is truthy. *)
Definition has_doi (p : Paper.t) : bool := Py.truthy_str (Paper.doi p).

Definition doi_bearing (papers : list Paper.t) : list Paper.t :=
  List.filter has_doi papers.

Definition doi_less (papers : list Paper.t) : list Paper.t :=
  List.filter (fun p => negb (has_doi p)) papers.

(** The key of a DOI-bearing paper: its DOI lower-cased, then trimmed. *)
Definition paper_key (p : Paper.t) : string :=
  Text.strip (Text.lower (Py.str_or (Paper.doi p) "")).

(** The DOI-bearing papers with key [k], in input order. *)
Definition with_key (k : string) (papers : list Paper.t) : list Paper.t :=
  List.filter (fun p => String.eqb (paper_key p) k) (doi_bearing papers).

(** The distinct keys in the order of their first occurrence. *)
Definition first_seen (keys : list string) : list string :=
  reverse (remove_dups (reverse keys)).

(** The later paper wins exactly when its abstract is strictly longer. *)
Definition longer (kept later : Paper.t) : Paper.t :=
  if (String.length (Paper.abstract kept) <? String.length (Paper.abstract later))%nat
  then later else kept.

(** The survivor among the papers of one key: the first one is kept and
    each later one is compared with the paper kept so far. *)
Definition winner (same_key : list Paper.t) : option Paper.t :=
  match same_key with
  | [] => None
  | p :: later => Some (fold_left longer later p)
  end.

Definition title_tokens (without_doi : list Paper.t) : list (Paper.t * gset string) :=
  map (fun p => (p, Text.tokenize (Paper.title p))) without_doi.

(** What one turn of the second loop appends to [kept]. *)
Definition survivor (tt : list (Paper.t * gset string))
    (ip : nat * (Paper.t * gset string)) : list Paper.t :=
  if is_dup tt (fst ip) (snd (snd ip)) then [] else [fst (snd ip)].

Definition title_survivors (without_doi : list Paper.t) : list Paper.t :=
  flat_map (survivor (title_tokens without_doi))
    (Py.enumerate 0 (title_tokens without_doi)).

(** The title similarity of two papers reaches the threshold. *)
Definition similar_titles (p q : Paper.t) : Prop :=
  (9 # 10 <= Text.jaccard_similarity (Text.tokenize (Paper.title p))
               (Text.tokenize (Paper.title q)))%Q.

(** The paper at position [i] of the DOI-less papers is found to be a
    duplicate. *)
Definition dup_at (without_doi : list Paper.t) (i : nat) : bool :=
  match without_doi !! i with
  | Some p => is_dup (title_tokens without_doi) i (Text.tokenize (Paper.title p))
  | None => false
  end.

(** The rule in which a paper is compared with the papers kept before it
    only. *)
Fixpoint keep_against_kept (kept rest : list Paper.t) : list Paper.t :=
  match rest with
  | [] => kept
  | p :: rest' =>
      if existsb (fun q => similar (Text.tokenize (Paper.title p))
                             (Text.tokenize (Paper.title q))) kept
      then keep_against_kept kept rest'
      else keep_against_kept (kept ++ [p]) rest'
  end.

End DedupSpec.

(** ** Bullets of the fallback report *)

Module FallbackSpec.
Import Research.




End FallbackSpec.

(** ** Worlds used as concrete inputs *)

Module Worlds.

Definition source_down : string -> Z -> Py.result (list RawItem.t) :=
  fun _ _ => Py.Raise (Py.HTTPError "503 Service Unavailable").

(** Nothing configured, nothing reachable. *)
Definition offline : World.t :=
  World.mk AppSettings.default false source_down source_down
    (fun _ _ => Py.Raise (Py.HTTPError "connection refused"))
    (fun _ _ _ => Py.Raise (Py.HTTPError "connection refused"))
    (fun _ _ => Py.Raise (Py.HTTPError "connection refused")).

(** An OpenAI key is configured and the completion comes back with no
    content; both bibliographic sources are down. *)
Definition silent_openai : World.t :=
  World.mk
    (AppSettings.mk None (Some "sk-test") None "http://localhost:11434"
       "your-email@example.com" 25 10)
    true source_down source_down
    (fun _ _ => Py.Ok None)
    (fun _ _ _ => Py.Raise (Py.HTTPError "401 Unauthorized"))
    (fun _ _ => Py.Raise (Py.HTTPError "connection refused")).

End Worlds.


(** ** Papers used as concrete inputs *)

Module Samples.

Definition paper (title abstract : string) (doi : option string) : Paper.t :=
  Paper.mk "crossref" None title abstract [] None "" None doi None.

(** Three DOI-less titles of 10, 11 and 12 distinct tokens, each one
    extending the previous one by a token. *)
Definition chain_a : Paper.t := paper "a b c d e f g h i j" "" None.
Definition chain_b : Paper.t := paper "a b c d e f g h i j k" "" None.
Definition chain_c : Paper.t := paper "a b c d e f g h i j k l" "" None.


(** Two records of one DOI, written in different case and spacing. *)
Definition doi_short : Paper.t :=
  paper "Graph networks" "A short abstract." (Some " 10.1000/XYZ ").
Definition doi_long : Paper.t :=
  paper "Graph networks (extended)" "A longer abstract, with details."
    (Some "10.1000/xyz").


Definition graph : Paper.t := paper "graph" "" None.
Definition graph_neural : Paper.t := paper "graph neural" "" None.

(** arXiv answers with one record, Crossref is down. *)
Definition one_hit : World.t :=
  World.mk AppSettings.default false
    (fun _ _ =>
       Py.Ok [RawItem.mk "arxiv" None (Some "graph") "" [] (Some 2020%Z)
                (Some "http://arxiv.org/abs/1") None None None])
    Worlds.source_down
    (fun _ _ => Py.Raise (Py.HTTPError "connection refused"))
    (fun _ _ _ => Py.Raise (Py.HTTPError "connection refused"))
    (fun _ _ => Py.Raise (Py.HTTPError "connection refused")).

End Samples.

(** ** Words of a text *)

Module TextWords.
Import Text.

(** The pieces of [s] between the characters that satisfy [p]; as in
    [split], an empty piece stands between adjacent cuts. *)
Fixpoint split_by (p : ascii -> bool) (s : string) : list string :=
  match s with
  | EmptyString => [EmptyString]
  | String c s' =>
      if p c then EmptyString :: split_by p s'
      else match split_by p s' with
           | w :: ws => String c w :: ws
           | [] => [String c EmptyString]
           end
  end.

(** The characters that end up in a token: [A-Za-z0-9]. *)
Definition is_token_char (c : ascii) : bool := is_alnum_lc (lower_char c).

(** The maximal runs of token characters, lower-cased, in text order. *)
Definition words (s : string) : list string :=
  map lower (List.filter nonempty (split_by (fun c => negb (is_token_char c)) s)).

Definition chars (s : string) : list ascii := list_ascii_of_string s.

End TextWords.

(** ** Entries of the DOI dictionary and resemblance *)

Module DedupEntries.
Import Research DedupSpec.

(** Every entry of the dictionary is an input paper with a truthy DOI,
    filed under its own key. *)
Definition entry_ok (papers : list Paper.t) (kv : string * Paper.t) : Prop :=
  has_doi (snd kv) = true /\ paper_key (snd kv) = fst kv /\ snd kv ∈ papers.

(** The title of [p] reaches the threshold against one of [earlier]. *)
Definition resembles_any (p : Paper.t) (earlier : list Paper.t) : bool :=
  existsb (fun q => similar (Text.tokenize (Paper.title p))
                      (Text.tokenize (Paper.title q))) earlier.

End DedupEntries.

(** ** sources/arxiv_client.py

    The part of [search_arxiv] that follows the HTTP call and
    [feedparser.parse]: a feed entry is a record of the keys the code
    reads. *)

Module ArxivClient.

(** [\d] on ASCII text *)
Definition is_digit (c : ascii) : bool :=
  ((48 <=? Text.code c) && (Text.code c <=? 57))%nat.

Definition digit_value (c : ascii) : Z := Z.of_nat (Text.code c) - 48.

Definition is_hyphen (c : ascii) : bool := Ascii.eqb c "-"%char.

(** [_extract_year]: [re.match(r"(\d{4})-\d{2}-\d{2}", dt)] looks at the
    first ten characters only; [int(m.group(1))] is the number written by
    the first four. *)
Definition _extract_year (dt : option string) : option Z :=
  match dt with
  | None => None
  | Some s =>
      match list_ascii_of_string s with
      | y1 :: y2 :: y3 :: y4 :: h1 :: m1 :: m2 :: h2 :: d1 :: d2 :: _ =>
          if is_digit y1 && is_digit y2 && is_digit y3 && is_digit y4
             && is_hyphen h1 && is_digit m1 && is_digit m2
             && is_hyphen h2 && is_digit d1 && is_digit d2
          then Some (1000 * digit_value y1 + 100 * digit_value y2
                     + 10 * digit_value y3 + digit_value y4)%Z
          else None
      | _ => None
      end
  end.

Module Link.
Record t : Type := mk { rel : option string; href : option string }.
End Link.

(** A feed entry: [None] is an absent key.  [authors] holds
    [a.get("name")] of each author. *)
Module Entry.
Record t : Type := mk {
  id : option string;
  title : option string;
  summary : option string;
  authors : list (option string);
  links : list Link.t;
  published : option string;
  arxiv_doi : option string
}.
End Entry.

(** [s.endswith(suffix)] *)
Definition endswith (s suffix : string) : bool :=
  (String.length suffix <=? String.length s)%nat
  && String.eqb
       (substring (String.length s - String.length suffix)
          (String.length suffix) s)
       suffix.

(** One turn of the loop over the links, on [(link_pdf, link_abs)]. *)
Definition link_step (st : option string * option string) (l : Link.t)
  : option string * option string :=
  let '(link_pdf, link_abs) := st in
  let rel := Link.rel l in
  let href := Link.href l in
  let is_rel (name : string) :=
    match rel with Some r => String.eqb r name | None => false end in
  let link_pdf :=
    if is_rel "related" && Py.truthy_str href
       && endswith (Py.str_or href "") ".pdf"
    then href else link_pdf in
  let link_abs :=
    if is_rel "alternate" && Py.truthy_str href then href else link_abs in
  (link_pdf, link_abs).

(** [entry.get(key, "")] *)
Definition get_or_empty (o : option string) : string :=
  match o with Some s => s | None => EmptyString end.

(** The dict appended to [results] for one entry. *)
Definition record (entry : Entry.t) : RawItem.t :=
  let authors :=
    flat_map (fun name => if Py.truthy_str name then [get_or_empty name] else [])
      (Entry.authors entry) in
  let '(link_pdf, link_abs) :=
    fold_left link_step (Entry.links entry) (None, None) in
  let doi := Entry.arxiv_doi entry in
  RawItem.mk "arxiv" (Entry.id entry)
    (Some (Text.strip (get_or_empty (Entry.title entry))))
    (Text.strip (get_or_empty (Entry.summary entry)))
    authors
    (_extract_year (Entry.published entry))
    (if Py.truthy_str link_abs then link_abs else Entry.id entry)
    link_pdf doi None.

(** [results] after the loop over [feed.entries]. *)
Definition records (entries : list Entry.t) : list RawItem.t := map record entries.

End ArxivClient.

(** ** sources/crossref_client.py

    The part of [search_crossref] that follows the HTTP call and
    [resp.json()]: an item is a record of the keys the code reads. *)

Module CrossrefClient.

(** [re.sub(r"<[^>]+>", " ", text)], read from the left.  [tag] is [None]
    outside a tag, and inside one it holds the characters read since the
    ["<"], none of which is [">"].  A [">"] closes the tag if at least one
    character was read; ["<>"] is no tag; a ["<"] that is never closed
    stays with all that follows it. *)
Fixpoint TAG_RE_sub_from (tag : option string) (s : string) : string :=
  match s with
  | EmptyString =>
      match tag with
      | None => EmptyString
      | Some buf => String "<"%char buf
      end
  | String c s' =>
      match tag with
      | None =>
          if Ascii.eqb c "<"%char then TAG_RE_sub_from (Some EmptyString) s'
          else String c (TAG_RE_sub_from None s')
      | Some buf =>
          if Ascii.eqb c ">"%char then
            match buf with
            | EmptyString =>
                String "<"%char (String ">"%char (TAG_RE_sub_from None s'))
            | _ => String " "%char (TAG_RE_sub_from None s')
            end
          else TAG_RE_sub_from (Some (buf +:+ String c EmptyString)) s'
      end
  end.

Definition TAG_RE_sub (s : string) : string := TAG_RE_sub_from None s.

(** [_strip_html]; [html.unescape] is the library's entity table, taken as
    a parameter. *)
Definition _strip_html (unescape : string -> string) (text : option string)
  : string :=
  if Py.truthy_str text then
    let text := unescape (ArxivClient.get_or_empty text) in
    let text := TAG_RE_sub text in
    Text.strip (Text.WS_RE_sub text)
  else EmptyString.

Module Author.
Record t : Type := mk { given : option string; family : option string }.
End Author.

(** A work of [message.items]: [None] is an absent key.  The elements of
    a date part are integers or [null]. *)
Module Item.
Record t : Type := mk {
  author : option (list Author.t);
  DOI : option string;
  URL : option string;
  title : option (list string);
  abstract : option string;
  date_parts : option (list (list (option Z)));
  container_title : option (list string);
  publisher : option string
}.
End Item.

(** What the conversion of the items does: it returns, or an indexing of
    an empty list raises [IndexError]. *)
Inductive outcome (A : Type) : Type :=
  | Returned (a : A)
  | IndexError.
Arguments Returned {A} a.
Arguments IndexError {A}.

(** [_extract_year(item)]: [int(str(parts[0][0]))] is the integer itself,
    and raises, caught, on [null]. *)
Definition _extract_year (item : Item.t) : option Z :=
  match Item.date_parts item with
  | Some ((Some y :: _) :: _) => Some y
  | _ => None
  end.

(** [" ".join([p for p in name_parts if p])] *)
Definition author_name (a : Author.t) : string :=
  Py.join " "
    (flat_map (fun part => if Py.truthy_str part
                           then [ArxivClient.get_or_empty part] else [])
       [Author.given a; Author.family a]).

(** [it.get("container-title", [None])[0] or it.get("publisher")] *)
Definition venue (it : Item.t) : outcome (option string) :=
  match Item.container_title it with
  | None => Returned (Item.publisher it)
  | Some [] => IndexError
  | Some (first :: _) =>
      Returned (if Text.nonempty first then Some first else Item.publisher it)
  end.

(** The dict appended to [results] for one item. *)
Definition record (unescape : string -> string) (it : Item.t)
  : outcome RawItem.t :=
  let authors :=
    map author_name (match Item.author it with Some l => l | None => [] end) in
  let id := if Py.truthy_str (Item.DOI it) then Item.DOI it else Item.URL it in
  let title :=
    match Item.title it with
    | Some (first :: _) => first
    | _ => EmptyString
    end in
  let abstract := _strip_html unescape (Item.abstract it) in
  let year := _extract_year it in
  let url := Py.str_or (Item.URL it) "" in
  match venue it with
  | IndexError => IndexError
  | Returned v =>
      Returned (RawItem.mk "crossref" id (Some title) abstract authors year
                  (Some url) None (Item.DOI it) v)
  end.

(** [results] after the loop over the items: the first item that raises
    ends the function. *)
Fixpoint records (unescape : string -> string) (items : list Item.t)
  : outcome (list RawItem.t) :=
  match items with
  | [] => Returned []
  | it :: rest =>
      match record unescape it with
      | IndexError => IndexError
      | Returned r =>
          match records unescape rest with
          | IndexError => IndexError
          | Returned rs => Returned (r :: rs)
          end
      end
  end.

End CrossrefClient.

(** ** Dates and whitespace, for the source clients *)

Module ClientSpec.

(** The decimal digit [n mod 10] as a character. *)
Definition digit_char (n : Z) : ascii := ascii_of_nat (Z.to_nat (48 + n mod 10)).

(** [n] written with four digits, and with two. *)
Definition four_digits (n : Z) : string :=
  String (digit_char (n / 1000)) (String (digit_char (n / 100))
    (String (digit_char (n / 10)) (String (digit_char n) EmptyString))).

Definition two_digits (n : Z) : string :=
  String (digit_char (n / 10)) (String (digit_char n) EmptyString).

(** [YYYY-MM-DD] *)
Definition iso_date (year month day : Z) : string :=
  four_digits year +:+ "-" +:+ two_digits month +:+ "-" +:+ two_digits day.

(** The links the loop of [search_arxiv] reacts to. *)
Definition is_alternate (l : ArxivClient.Link.t) : bool :=
  match ArxivClient.Link.rel l with
  | Some r => String.eqb r "alternate"
  | None => false
  end
  && Py.truthy_str (ArxivClient.Link.href l).

Definition is_pdf_link (l : ArxivClient.Link.t) : bool :=
  match ArxivClient.Link.rel l with
  | Some r => String.eqb r "related"
  | None => false
  end
  && Py.truthy_str (ArxivClient.Link.href l)
  && ArxivClient.endswith (Py.str_or (ArxivClient.Link.href l) "") ".pdf".

(** The [href] of the last link that satisfies [pick], else [otherwise]. *)
Definition last_href (pick : ArxivClient.Link.t -> bool)
    (links : list ArxivClient.Link.t) (otherwise : option string)
  : option string :=
  match last (List.filter pick links) with
  | Some l => ArxivClient.Link.href l
  | None => otherwise
  end.

(** The item has a ["container-title"] key that holds the empty list. *)
Definition empty_container_title (it : CrossrefClient.Item.t) : bool :=
  match CrossrefClient.Item.container_title it with
  | Some [] => true
  | _ => false
  end.

(** [c in s] *)
Definition has_char (c : ascii) (s : string) : bool :=
  existsb (Ascii.eqb c) (list_ascii_of_string s).


End ClientSpec.

(** * Properties *)

(** ** Text utilities *)

Module TextFacts.
Import Text.
Import TextSpec.

(** Character classes are intervals of codes: split every comparison and
    let [lia] compare the bounds. *)
Ltac by_code c :=
  unfold is_alnum_lc, is_space, is_upper; cbv zeta;
  generalize (code c); intros n;
  repeat match goal with
         | |- context [(?a <=? ?b)%nat] => destruct (Nat.leb_spec a b)
         end;
  simpl; intros; try reflexivity; try discriminate; lia.

Lemma alnum_not_space c : is_alnum_lc c = true -> is_space c = false.
Proof. by_code c. Qed.

Lemma alnum_not_upper c : is_alnum_lc c = true -> is_upper c = false.
Proof. by_code c. Qed.

Lemma space_not_upper c : is_space c = true -> is_upper c = false.
Proof. by_code c. Qed.

Lemma space_is_space : is_space space = true.
Proof. reflexivity. Qed.

Lemma lower_char_fixed c :
  is_alnum_lc c = true \/ is_space c = true -> lower_char c = c.
Proof.
  intros [H | H]; unfold lower_char.
  - now rewrite (alnum_not_upper _ H).
  - now rewrite (space_not_upper _ H).
Qed.

Lemma spaced_weaken b s : spaced b s = true -> spaced false s = true.
Proof.
  destruct s as [| c s]; simpl; [easy |].
  destruct (is_space c); [| easy].
  destruct b; simpl; [| easy].
  rewrite andb_false_r. discriminate.
Qed.

Lemma spaced_lower b s : spaced b s = true -> lower s = s.
Proof.
  revert b. induction s as [| c s IH]; intros b H; [reflexivity |].
  simpl in H. unfold lower in *. simpl.
  destruct (is_space c) eqn:Hs.
  - apply andb_prop in H as [_ H]. rewrite (IH _ H).
    now rewrite lower_char_fixed by auto.
  - apply andb_prop in H as [Ha H]. rewrite (IH _ H).
    now rewrite lower_char_fixed by auto.
Qed.

Lemma spaced_punct b s : spaced b s = true -> PUNCT_RE_sub s = s.
Proof.
  revert b. induction s as [| c s IH]; intros b H; [reflexivity |].
  simpl in H. unfold PUNCT_RE_sub in *. simpl.
  destruct (is_space c) eqn:Hs.
  - apply andb_prop in H as [_ H]. rewrite (IH _ H).
    now rewrite orb_true_r.
  - apply andb_prop in H as [Ha H]. rewrite (IH _ H). now rewrite Ha.
Qed.

Lemma spaced_ws b s : spaced b s = true -> WS_RE_sub_from b s = s.
Proof.
  revert b. induction s as [| c s IH]; intros b H; [reflexivity |].
  simpl in *. destruct (is_space c) eqn:Hs.
  - apply andb_prop in H as [H1 H]. apply andb_prop in H1 as [Hc Hb].
    destruct b; [discriminate |].
    apply Ascii.eqb_eq in Hc. subst c. now rewrite (IH _ H).
  - apply andb_prop in H as [_ H]. now rewrite (IH _ H).
Qed.

(** The substitution steps produce a well spaced string. *)
Lemma ws_sub_spaced b s :
  spaced b (WS_RE_sub_from b (PUNCT_RE_sub s)) = true.
Proof.
  revert b. unfold PUNCT_RE_sub.
  induction s as [| c s IH]; intros b; [reflexivity |].
  simpl. destruct (is_alnum_lc c) eqn:Ha; simpl.
  - rewrite (alnum_not_space _ Ha). simpl.
    rewrite (alnum_not_space _ Ha), Ha. apply IH.
  - destruct (is_space c) eqn:Hs.
    + rewrite Hs. destruct b; [apply IH |].
      simpl. apply IH.
    + rewrite space_is_space. destruct b; [apply IH |].
      simpl. apply IH.
Qed.

Lemma lstrip_spaced b s :
  spaced b s = true -> spaced true (lstrip_by is_space s) = true.
Proof.
  revert b. induction s as [| c s IH]; intros b H; [reflexivity |].
  simpl in *. destruct (is_space c) eqn:Hs.
  - apply andb_prop in H as [_ H]. now apply IH in H.
  - simpl. now rewrite Hs.
Qed.

Lemma rstrip_spaced b s :
  spaced b s = true -> spaced b (rstrip_by is_space s) = true.
Proof.
  revert b. induction s as [| c s IH]; intros b H; [reflexivity |].
  simpl in H. simpl.
  destruct (is_space c) eqn:Hs.
  - apply andb_prop in H as [H1 H]. specialize (IH _ H).
    destruct (rstrip_by is_space s) eqn:Hr; [reflexivity |].
    simpl. rewrite Hs, H1. exact IH.
  - apply andb_prop in H as [Ha H]. specialize (IH _ H).
    destruct (rstrip_by is_space s) eqn:Hr; simpl; rewrite Hs, Ha; [reflexivity |].
    exact IH.
Qed.

Lemma rstrip_closed s : closed (rstrip_by is_space s) = true.
Proof.
  induction s as [| c s IH]; [reflexivity |].
  simpl. destruct (rstrip_by is_space s) as [| d r] eqn:Hr.
  - destruct (is_space c) eqn:Hs; simpl; [reflexivity | now rewrite Hs].
  - exact IH.
Qed.

Lemma lstrip_fixed s : spaced true s = true -> lstrip_by is_space s = s.
Proof.
  destruct s as [| c s]; [reflexivity |].
  simpl. destruct (is_space c); [| reflexivity].
  rewrite andb_false_r. discriminate.
Qed.

Lemma rstrip_fixed s : closed s = true -> rstrip_by is_space s = s.
Proof.
  induction s as [| c s IH]; [reflexivity |].
  intros H. simpl. destruct s as [| d s'].
  - simpl in *. now destruct (is_space c).
  - rewrite IH by exact H. reflexivity.
Qed.

Lemma normalize_title_spaced x : spaced true (normalize_title x) = true.
Proof.
  unfold normalize_title, strip, WS_RE_sub.
  apply rstrip_spaced. eapply lstrip_spaced. apply ws_sub_spaced.
Qed.

Lemma normalize_title_closed x : closed (normalize_title x) = true.
Proof. unfold normalize_title, strip. apply rstrip_closed. Qed.

(** A string in normal form is left as it is. *)
Lemma normalize_title_fixed s :
  spaced true s = true -> closed s = true -> normalize_title s = s.
Proof.
  intros Hs Hc. unfold normalize_title, strip, WS_RE_sub.
  rewrite (spaced_lower _ _ Hs), (spaced_punct _ _ Hs).
  rewrite (spaced_ws _ _ (spaced_weaken _ _ Hs)).
  rewrite (lstrip_fixed _ Hs). now apply rstrip_fixed.
Qed.

Lemma normalize_title_idempotent x :
  normalize_title (normalize_title x) = normalize_title x.
Proof.
  apply normalize_title_fixed;
    [apply normalize_title_spaced | apply normalize_title_closed].
Qed.

(** C8: tokenizing a normalized title gives the token set of the original
    string: [tokenize (normalize_title x) = tokenize x] for every string
    [x], where [tokenize] is the set of the non-empty pieces of the
    normalized text cut at each space. *)
Theorem tokenize_normalize_title (x : string) :
  tokenize (normalize_title x) = tokenize x
  /\ tokenize x
     = list_to_set (List.filter nonempty (split space (normalize_title x))).
Proof.
  split; [| reflexivity].
  unfold tokenize. now rewrite normalize_title_idempotent.
Qed.

Example normalize_title_ex :
  normalize_title "  Graph-Neural  NETWORKS: a Survey! "
  = "graph neural networks a survey".
Proof. vm_compute. reflexivity. Qed.

Example tokenize_ex : tokenize "A a, b" = {[ "a"; "b" ]}.
Proof. vm_compute. reflexivity. Qed.

Example jaccard_ex :
  (jaccard_similarity {[ "a"; "b" ]} {[ "b"; "c" ]} == 1 # 3)%Q.
Proof. vm_compute. reflexivity. Qed.

End TextFacts.

(** ** The provider factory *)

Module ProviderFacts.
Import Providers.
Import ProviderSpec.

Lemma no_choice_resolved w preferred :
  Py.truthy_str preferred = false ->
  Py.truthy_str (AppSettings.default_llm_provider (World.settings w)) = false ->
  Py.truthy_str (resolve_choice w preferred) = false.
Proof. intros Hp Hd. unfold resolve_choice. now rewrite Hp. Qed.

Lemma OpenAIProvider_no_key w :
  Py.truthy_str (AppSettings.openai_api_key (World.settings w)) = false ->
  OpenAIProvider w = Py.Raise (Py.RuntimeError "OPENAI_API_KEY is not set").
Proof.
  unfold OpenAIProvider, Py.truthy_str.
  destruct (AppSettings.openai_api_key _) as [k |]; [| reflexivity].
  now intros ->.
Qed.

Lemma TogetherProvider_no_key w :
  Py.truthy_str (AppSettings.together_api_key (World.settings w)) = false ->
  TogetherProvider w = Py.Raise (Py.RuntimeError "TOGETHER_API_KEY is not set").
Proof.
  unfold TogetherProvider, Py.truthy_str.
  destruct (AppSettings.together_api_key _) as [k |]; [| reflexivity].
  now intros ->.
Qed.

(** C6: with no explicit preference and no configured default provider,
    [get_default_llm_provider] tries OpenAI, Together and the local-host
    variant in this order and returns the first one whose construction
    succeeds, logging the failed attempts in the same order; it always
    returns a provider and never raises, and with neither API key
    configured the provider is the local-host one. *)
Theorem get_default_llm_provider_auto_detect
    (w : World.t) (preferred : option string) :
  Py.truthy_str preferred = false ->
  Py.truthy_str (AppSettings.default_llm_provider (World.settings w)) = false ->
  exists llm : LLMProvider,
    snd (get_default_llm_provider w preferred) = Py.Ok llm
    /\ first_ok [OpenAIProvider w; TogetherProvider w; OllamaProvider w] = Some llm
    /\ fst (get_default_llm_provider w preferred)
       = failures_before_ok
           [("OpenAI", OpenAIProvider w); ("Together", TogetherProvider w);
            ("Ollama", OllamaProvider w)]
    /\ (Py.truthy_str (AppSettings.openai_api_key (World.settings w)) = false ->
        Py.truthy_str (AppSettings.together_api_key (World.settings w)) = false ->
        llm = Ollama "llama3.1"
                (Text.rstrip_by (Ascii.eqb "/"%char)
                   (AppSettings.ollama_base_url (World.settings w)))).
Proof.
  intros Hp Hd.
  pose proof (no_choice_resolved w preferred Hp Hd) as Hc.
  unfold get_default_llm_provider.
  destruct (resolve_choice w preferred) as [c |] eqn:Hr.
  - simpl in Hc. rewrite Hc.
    destruct (OpenAIProvider w) as [o | e] eqn:Ho.
    + exists o. simpl. repeat split; try reflexivity.
      intros Hk _. rewrite (OpenAIProvider_no_key w Hk) in Ho. discriminate.
    + destruct (TogetherProvider w) as [t | e'] eqn:Ht.
      * exists t. simpl. repeat split; try reflexivity.
        intros _ Hk. rewrite (TogetherProvider_no_key w Hk) in Ht. discriminate.
      * eexists. simpl. repeat split; reflexivity.
  - destruct (OpenAIProvider w) as [o | e] eqn:Ho.
    + exists o. simpl. repeat split; try reflexivity.
      intros Hk _. rewrite (OpenAIProvider_no_key w Hk) in Ho. discriminate.
    + destruct (TogetherProvider w) as [t | e'] eqn:Ht.
      * exists t. simpl. repeat split; try reflexivity.
        intros _ Hk. rewrite (TogetherProvider_no_key w Hk) in Ht. discriminate.
      * eexists. simpl. repeat split; reflexivity.
Qed.

Lemma get_default_llm_provider_auto_detect_witness :
  exists llm : LLMProvider,
    snd (get_default_llm_provider Worlds.offline None) = Py.Ok llm
    /\ first_ok [OpenAIProvider Worlds.offline; TogetherProvider Worlds.offline;
                 OllamaProvider Worlds.offline] = Some llm
    /\ fst (get_default_llm_provider Worlds.offline None)
       = failures_before_ok
           [("OpenAI", OpenAIProvider Worlds.offline);
            ("Together", TogetherProvider Worlds.offline);
            ("Ollama", OllamaProvider Worlds.offline)]
    /\ (Py.truthy_str (AppSettings.openai_api_key (World.settings Worlds.offline)) = false ->
        Py.truthy_str (AppSettings.together_api_key (World.settings Worlds.offline)) = false ->
        llm = Ollama "llama3.1"
                (Text.rstrip_by (Ascii.eqb "/"%char)
                   (AppSettings.ollama_base_url (World.settings Worlds.offline)))).
Proof.
  apply (get_default_llm_provider_auto_detect Worlds.offline None); reflexivity.
Defined.

Example auto_detect_offline :
  get_default_llm_provider Worlds.offline None
  = (["OpenAI provider not available: OPENAI_API_KEY is not set";
      "Together provider not available: TOGETHER_API_KEY is not set"],
     Py.Ok (Ollama "llama3.1" "http://localhost:11434")).
Proof. reflexivity. Qed.

Example explicit_preference_propagates :
  snd (get_default_llm_provider Worlds.offline (Some "OpenAI"))
  = Py.Raise (Py.RuntimeError "OPENAI_API_KEY is not set").
Proof. reflexivity. Qed.

End ProviderFacts.

(** ** Python list helpers *)

Module PyFacts.
Import Py.

Lemma length_enumerate {A} (start : nat) (l : list A) :
  length (enumerate start l) = length l.
Proof. revert start. induction l as [| x l IH]; intros; simpl; [| rewrite IH]; reflexivity. Qed.

Lemma enumerate_lookup {A} (start i : nat) (l : list A) :
  enumerate start l !! i = (fun x => (start + i, x)) <$> l !! i.
Proof.
  revert start i. induction l as [| x l IH]; intros start [| i]; simpl; try reflexivity.
  - now rewrite Nat.add_0_r.
  - rewrite IH. now replace (S start + i) with (start + S i) by lia.
Qed.


Lemma enumerate_app {A} (start : nat) (l1 l2 : list A) :
  enumerate start (l1 ++ l2)
  = enumerate start l1 ++ enumerate (start + length l1) l2.
Proof.
  revert start. induction l1 as [| x l1 IH]; intros start; simpl.
  - now rewrite Nat.add_0_r.
  - rewrite IH. now replace (S start + length l1) with (start + S (length l1)) by lia.
Qed.

Lemma map_snd_enumerate {A} (start : nat) (l : list A) :
  map snd (enumerate start l) = l.
Proof. revert start. induction l as [| x l IH]; intros; simpl; [| rewrite IH]; reflexivity. Qed.

Lemma length_slice_to {A} (k : Z) (l : list A) :
  Z.of_nat (length (slice_to k l))
  = if (0 <=? k)%Z then Z.min k (Z.of_nat (length l))
    else Z.max 0 (Z.of_nat (length l) + k).
Proof.
  unfold slice_to. destruct (Z.leb_spec 0 k); rewrite length_take; lia.
Qed.

Lemma slice_to_prefix {A} (k : Z) (l : list A) :
  exists rest, l = slice_to k l ++ rest.
Proof.
  unfold slice_to. destruct (0 <=? k)%Z; eexists; symmetry; apply take_drop.
Qed.


End PyFacts.

(** ** The orchestrator: responses *)

Module ResponseFacts.
Import Research.
Import ResponseSpec.

Lemma citation_of_projection idx p : citation_of idx p = projection idx p.
Proof.
  unfold citation_of, projection, citation_url. f_equal.
  destruct (Paper.url p); simpl; [| reflexivity].
  destruct (Paper.pdf_url p) as [[| c u] |]; reflexivity.
Qed.

Lemma length_build_citations selected :
  length (build_citations selected) = length selected.
Proof. unfold build_citations. now rewrite length_map, PyFacts.length_enumerate. Qed.

Lemma build_citations_lookup selected i :
  build_citations selected !! i = projection (S i) <$> selected !! i.
Proof.
  unfold build_citations.
  rewrite list_lookup_fmap, PyFacts.enumerate_lookup.
  destruct (selected !! i); simpl; [| reflexivity].
  now rewrite citation_of_projection.
Qed.

Lemma response_citations w query top_k provider_choice :
  ResearchResponse.citations (run_research w query top_k provider_choice)
  = build_citations
      (ResearchResponse.selected (run_research w query top_k provider_choice))
  /\ ResearchResponse.num_sources (run_research w query top_k provider_choice)
     = Z.of_nat
         (length (ResearchResponse.selected
                    (run_research w query top_k provider_choice))).
Proof.
  unfold run_research.
  destruct (retrieve_sources _ _ _); simpl; split; reflexivity.
Qed.

(** C3: in every response of [run_research] the citations and the
    selected papers have the same length, [num_sources] is that length, and
    the citation at position [i] (from 0) is the projection of the selected
    paper at position [i] with index [i + 1]: title, authors, year, doi and
    source copied, url the paper's url, else its pdf_url, else the empty
    string. *)
Theorem run_research_citations_parallel
    (w : World.t) (query : string) (top_k : option Z)
    (provider_choice : option string) :
  let r := run_research w query top_k provider_choice in
  length (ResearchResponse.citations r) = length (ResearchResponse.selected r)
  /\ ResearchResponse.num_sources r
     = Z.of_nat (length (ResearchResponse.selected r))
  /\ (forall i : nat,
        ResearchResponse.citations r !! i
        = projection (i + 1) <$> ResearchResponse.selected r !! i)
  /\ map Citation.index (ResearchResponse.citations r)
     = map Z.of_nat (seq 1 (length (ResearchResponse.selected r))).
Proof.
  intros r. subst r.
  destruct (response_citations w query top_k provider_choice) as [Hc Hn].
  rewrite Hc, Hn, length_build_citations.
  repeat split.
  - intros i. rewrite build_citations_lookup. now rewrite Nat.add_1_r.
  - apply list_eq. intros i.
    rewrite !list_lookup_fmap, build_citations_lookup.
    destruct (ResearchResponse.selected _ !! i) as [p |] eqn:Hi; simpl.
    + rewrite lookup_seq_lt by (eapply lookup_lt_Some; exact Hi). reflexivity.
    + rewrite lookup_seq_ge by (now apply lookup_ge_None). reflexivity.
Qed.

End ResponseFacts.

(** ** The stable descending sort *)

Section StableSortFacts.
Context {A : Type} (lt_key : A -> A -> bool).

Lemma insert_desc_perm x l : insert_desc lt_key x l ≡ₚ x :: l.
Proof.
  induction l as [| y l IH]; simpl; [reflexivity |].
  destruct (lt_key x y); [| reflexivity].
  rewrite IH. apply perm_swap.
Qed.

Lemma sort_desc_perm l : sort_desc lt_key l ≡ₚ l.
Proof.
  induction l as [| x l IH]; simpl; [reflexivity |].
  now rewrite insert_desc_perm, IH.
Qed.

Lemma length_sort_desc l : length (sort_desc lt_key l) = length l.
Proof. apply Permutation_length, sort_desc_perm. Qed.

(** Stability: a class of elements none of which is below another keeps
    its input order. *)
Lemma insert_desc_filter (f : A -> bool) x l :
  (forall a b, f a = true -> f b = true -> lt_key a b = false) ->
  List.filter f (insert_desc lt_key x l) = List.filter f (x :: l).
Proof.
  intros Hf. induction l as [| y l IH]; [reflexivity |].
  simpl. destruct (lt_key x y) eqn:Hxy; [| reflexivity].
  simpl. rewrite IH. simpl.
  destruct (f x) eqn:Hx, (f y) eqn:Hy; try reflexivity.
  rewrite (Hf x y Hx Hy) in Hxy. discriminate.
Qed.

Lemma sort_desc_stable (f : A -> bool) l :
  (forall a b, f a = true -> f b = true -> lt_key a b = false) ->
  List.filter f (sort_desc lt_key l) = List.filter f l.
Proof.
  intros Hf. induction l as [| x l IH]; [reflexivity |].
  simpl. rewrite insert_desc_filter by exact Hf. simpl. now rewrite IH.
Qed.

Hypothesis lt_asym : forall x y, lt_key x y = true -> lt_key y x = false.
Hypothesis not_below_trans :
  forall x y z, not_below lt_key x y -> not_below lt_key y z -> not_below lt_key x z.

Lemma insert_desc_sorted x l :
  StronglySorted (not_below lt_key) l -> StronglySorted (not_below lt_key) (insert_desc lt_key x l).
Proof using lt_asym not_below_trans.
  induction 1 as [| y l Hs IH Hy]; simpl.
  - constructor; constructor.
  - destruct (lt_key x y) eqn:Hxy.
    + constructor; [exact IH |].
      rewrite Forall_forall. intros z Hz.
      rewrite (insert_desc_perm x l) in Hz.
      apply elem_of_cons in Hz as [-> | Hz]; [now apply lt_asym |].
      rewrite Forall_forall in Hy. now apply Hy.
    + constructor; [now constructor |].
      constructor; [exact Hxy |].
      rewrite Forall_forall in Hy |- *. intros z Hz.
      apply (not_below_trans x y z); [exact Hxy | now apply Hy].
Qed.

Lemma sort_desc_sorted l : StronglySorted (not_below lt_key) (sort_desc lt_key l).
Proof using lt_asym not_below_trans.
  induction l as [| x l IH]; simpl; [constructor | now apply insert_desc_sorted].
Qed.
Lemma lt_key_irrefl x : lt_key x x = false.
Proof using lt_asym.
  destruct (lt_key x x) eqn:H; [| reflexivity].
  pose proof (lt_asym _ _ H) as H'. congruence.
Qed.

Lemma same_key_refl x : same_key lt_key x x = true.
Proof using lt_asym. unfold same_key. now rewrite lt_key_irrefl. Qed.

Lemma head_in_filter (f : A -> bool) x l l' :
  f x = true -> List.filter f (x :: l') = List.filter f l -> x ∈ l.
Proof.
  intros Hx E. apply list_elem_of_In.
  apply (proj1 (filter_In f x l)). rewrite <- E. simpl. rewrite Hx. now left.
Qed.

(** A descending list is fixed by the order of the elements within each
    key: two descending lists that agree on every key class are equal.  So
    every stable descending sort returns the list [sort_desc] returns. *)
Lemma sorted_stable_unique l1 l2 :
  StronglySorted (not_below lt_key) l1 ->
  StronglySorted (not_below lt_key) l2 ->
  (forall a, List.filter (same_key lt_key a) l1
             = List.filter (same_key lt_key a) l2) ->
  l1 = l2.
Proof using lt_asym.
  revert l2. induction l1 as [| x l1 IH]; intros l2 H1 H2 Hf.
  - destruct l2 as [| y l2]; [reflexivity |].
    specialize (Hf y). simpl in Hf. rewrite same_key_refl in Hf. discriminate.
  - destruct l2 as [| y l2].
    { specialize (Hf x). simpl in Hf. rewrite same_key_refl in Hf. discriminate. }
    apply StronglySorted_inv in H1 as [H1 Hx].
    apply StronglySorted_inv in H2 as [H2 Hy].
    assert (x ∈ y :: l2) as Hxin
      by exact (head_in_filter _ _ _ _ (same_key_refl x) (Hf x)).
    assert (y ∈ x :: l1) as Hyin
      by exact (head_in_filter _ _ _ _ (same_key_refl y) (eq_sym (Hf y))).
    assert (lt_key y x = false) as Hyx.
    { apply elem_of_cons in Hxin as [-> | Hin]; [apply lt_key_irrefl |].
      rewrite Forall_forall in Hy. now apply Hy. }
    assert (lt_key x y = false) as Hxy.
    { apply elem_of_cons in Hyin as [-> | Hin]; [apply lt_key_irrefl |].
      rewrite Forall_forall in Hx. now apply Hx. }
    assert (same_key lt_key x y = true) as Hsame
      by (unfold same_key; now rewrite Hyx, Hxy).
    pose proof (Hf x) as E. simpl in E. rewrite same_key_refl, Hsame in E.
    injection E as <- _.
    f_equal. apply IH; [exact H1 | exact H2 |].
    intros a. specialize (Hf a). simpl in Hf.
    destruct (same_key lt_key a x); [now injection Hf | exact Hf].
Qed.

Lemma sort_desc_unique l sorted :
  StronglySorted (not_below lt_key) sorted ->
  (forall a, List.filter (same_key lt_key a) sorted
             = List.filter (same_key lt_key a) l) ->
  sorted = sort_desc lt_key l.
Proof using lt_asym not_below_trans.
  intros Hs Hf. apply sorted_stable_unique; [exact Hs | apply sort_desc_sorted |].
  intros a. rewrite Hf. symmetry. apply sort_desc_stable.
  intros u v Hu Hv. unfold same_key in Hu, Hv.
  apply andb_prop in Hu as [Hu _]. apply andb_prop in Hv as [_ Hv].
  apply negb_true_iff in Hu, Hv.
  exact (not_below_trans u a v Hu Hv).
Qed.
End StableSortFacts.

Section SortDecorated.
Context {A B : Type} (lt_key : B -> B -> bool) (g : A -> B).

(** Sorting decorated elements is decorating the sorted elements. *)
Lemma insert_desc_map x l :
  insert_desc lt_key (g x) (map g l)
  = map g (insert_desc (fun a b => lt_key (g a) (g b)) x l).
Proof.
  induction l as [| y l IH]; [reflexivity |].
  simpl. destruct (lt_key (g x) (g y)); simpl; [now rewrite IH | reflexivity].
Qed.

Lemma sort_desc_map l :
  sort_desc lt_key (map g l)
  = map g (sort_desc (fun a b => lt_key (g a) (g b)) l).
Proof.
  induction l as [| x l IH]; [reflexivity |].
  simpl. now rewrite IH, insert_desc_map.
Qed.
End SortDecorated.

(** ** Ranking *)

Module RankFacts.
Import Research.
Import RankSpec.



Lemma slice_to_map {A B} (g : A -> B) (k : Z) (l : list A) :
  Py.slice_to k (map g l) = map g (Py.slice_to k l).
Proof.
  unfold Py.slice_to. rewrite length_map.
  destruct (0 <=? k)%Z; symmetry; apply fmap_take.
Qed.

(** The decoration with the score is invisible in the result. *)
Lemma rank_and_select_sorted_prefix query papers top_k :
  rank_and_select query papers top_k
  = Py.slice_to top_k (sort_desc (lt_score query) papers).
Proof.
  unfold rank_and_select, sort_scored.
  rewrite (sort_desc_map (fun x y => Rltb (fst x) (fst y))
             (fun p => (score_paper query p, p))).
  rewrite slice_to_map, map_map. simpl. apply map_id.
Qed.

Lemma length_rank_and_select query papers top_k :
  Z.of_nat (length (rank_and_select query papers top_k))
  = if (0 <=? top_k)%Z then Z.min top_k (Z.of_nat (length papers))
    else Z.max 0 (Z.of_nat (length papers) + top_k).
Proof.
  rewrite rank_and_select_sorted_prefix, PyFacts.length_slice_to.
  now rewrite length_sort_desc.
Qed.






End RankFacts.

(** ** Scoring *)

Module ScoreFacts.
Import Research.
Import ScoreSpec.

Lemma clamp_year_int_or (p : Paper.t) :
  clamp_year (Py.int_or (Paper.year p) 1990) = clamp (year_or_1990 p) 1990 2030.
Proof.
  unfold clamp_year, clamp, year_or_1990, Py.int_or.
  destruct (Paper.year p) as [y |]; [| reflexivity].
  destruct (Z.eqb_spec y 0); lia.
Qed.

Lemma relevance_overlaps query p :
  relevance query p = 2 * title_overlap query p + abstract_overlap query p.
Proof. unfold relevance, title_overlap, abstract_overlap. lia. Qed.

Lemma score_paper_unfold query p :
  score_paper query p
  = (0.75 * (1 - exp (- 0.3 * INR (2 * title_overlap query p + abstract_overlap query p)))
     + 0.25 * (IZR (clamp (year_or_1990 p) 1990 2030 - 1990) / 40))%R.
Proof.
  unfold score_paper, recency.
  rewrite relevance_overlaps, clamp_year_int_or.
  replace (2030 - 1990)%Z with 40%Z by reflexivity. reflexivity.
Qed.



End ScoreFacts.

(** ** Deduplication *)

Module DedupFacts.
Import Research.
Import DedupSpec.

(** *** The dictionary *)

Lemma dict_get_set {V} (k k0 : string) (v : V) (d : Py.dict V) :
  Py.dict_get k (Py.dict_set k0 v d)
  = if String.eqb k k0 then Some v else Py.dict_get k d.
Proof.
  induction d as [| [k' v'] d IH]; simpl.
  - reflexivity.
  - destruct (String.eqb_spec k0 k') as [-> | Hne]; simpl.
    + destruct (String.eqb k k'); reflexivity.
    + rewrite IH. destruct (String.eqb_spec k k') as [-> | Hne'].
      * destruct (String.eqb_spec k' k0); [congruence | reflexivity].
      * reflexivity.
Qed.

Lemma dict_get_None {V} (k : string) (d : Py.dict V) :
  Py.dict_get k d = None <-> k ∉ Py.dict_keys d.
Proof.
  induction d as [| [k' v'] d IH]; simpl.
  - split; [intros _; apply not_elem_of_nil | reflexivity].
  - rewrite not_elem_of_cons.
    destruct (String.eqb_spec k k') as [-> | Hne].
    + split; [discriminate | intros [H _]; congruence].
    + rewrite IH. tauto.
Qed.

Lemma dict_set_fresh {V} (k : string) (v : V) (d : Py.dict V) :
  Py.dict_get k d = None -> Py.dict_set k v d = d ++ [(k, v)].
Proof.
  induction d as [| [k' v'] d IH]; simpl; [reflexivity |].
  destruct (String.eqb k k'); [discriminate |].
  intros H. now rewrite IH.
Qed.

Lemma dict_set_keys_present {V} (k : string) (v e : V) (d : Py.dict V) :
  Py.dict_get k d = Some e -> Py.dict_keys (Py.dict_set k v d) = Py.dict_keys d.
Proof.
  induction d as [| [k' v'] d IH]; simpl; [discriminate |].
  destruct (String.eqb k k'); simpl; [reflexivity |].
  intros H. f_equal. now apply IH.
Qed.


Lemma winner_snoc l p :
  winner (l ++ [p])
  = Some (match winner l with Some e => longer e p | None => p end).
Proof.
  destruct l as [| x l]; simpl; [reflexivity |].
  now rewrite fold_left_app.
Qed.

Lemma first_seen_snoc keys k :
  first_seen (keys ++ [k])
  = if bool_decide (k ∈ keys) then first_seen keys else first_seen keys ++ [k].
Proof.
  unfold first_seen. rewrite reverse_snoc. simpl.
  destruct (decide_rel elem_of k (reverse keys)) as [Hin | Hnin].
  - rewrite elem_of_reverse in Hin. now rewrite bool_decide_eq_true_2.
  - rewrite elem_of_reverse in Hnin. rewrite bool_decide_eq_false_2 by exact Hnin.
    now rewrite reverse_cons.
Qed.

Lemma elem_of_first_seen keys k : k ∈ first_seen keys <-> k ∈ keys.
Proof.
  unfold first_seen. now rewrite elem_of_reverse, elem_of_remove_dups, elem_of_reverse.
Qed.

Lemma NoDup_first_seen keys : NoDup (first_seen keys).
Proof.
  unfold first_seen. rewrite reverse_Permutation. apply NoDup_remove_dups.
Qed.

(** *** The first loop *)

Lemma doi_loop_snoc papers p :
  doi_loop (papers ++ [p]) = doi_step (doi_loop papers) p.
Proof. unfold doi_loop. now rewrite fold_left_app. Qed.

Lemma doi_step_key p : doi_key (Py.str_or (Paper.doi p) "") = paper_key p.
Proof. reflexivity. Qed.

Lemma doi_loop_invariant papers :
  Py.dict_keys (fst (doi_loop papers))
  = first_seen (map paper_key (doi_bearing papers))
  /\ (forall k, Py.dict_get k (fst (doi_loop papers)) = winner (with_key k papers))
  /\ snd (doi_loop papers) = doi_less papers.
Proof.
  induction papers as [| p papers IH] using rev_ind.
  - repeat split.
  - destruct IH as (Hkeys & Hget & Hless).
    rewrite doi_loop_snoc.
    destruct (doi_loop papers) as [seen without] eqn:Hloop. simpl in *.
    unfold with_key, doi_bearing, doi_less in *.
    rewrite !List.filter_app. simpl.
    unfold doi_step. fold (has_doi p).
    destruct (has_doi p) eqn:Hp; simpl.
    + rewrite doi_step_key, map_app.
      change (map paper_key [p]) with [paper_key p]. rewrite first_seen_snoc.
      destruct (Py.dict_get (paper_key p) seen) as [e |] eqn:He.
      * assert (paper_key p ∈ map paper_key (List.filter has_doi papers)) as Hin.
        { apply elem_of_first_seen. rewrite <- Hkeys.
          destruct (decide (paper_key p ∈ Py.dict_keys seen)) as [H | H]; [exact H |].
          apply dict_get_None in H. congruence. }
        rewrite bool_decide_eq_true_2 by exact Hin.
        destruct (String.length (Paper.abstract e) <? String.length (Paper.abstract p))%nat eqn:Hlen;
          simpl; (split; [| split; [| rewrite app_nil_r; exact Hless]]).
        -- now rewrite (dict_set_keys_present _ _ e).
        -- intros k. rewrite dict_get_set, List.filter_app. simpl.
           rewrite (String.eqb_sym (paper_key p) k).
           destruct (String.eqb_spec k (paper_key p)) as [-> | Hne].
           ++ rewrite winner_snoc, <- Hget, He. unfold longer. now rewrite Hlen.
           ++ rewrite app_nil_r. apply Hget.
        -- exact Hkeys.
        -- intros k. rewrite List.filter_app. simpl.
           rewrite (String.eqb_sym (paper_key p) k).
           destruct (String.eqb_spec k (paper_key p)) as [-> | Hne].
           ++ rewrite winner_snoc, <- Hget, He. unfold longer. now rewrite Hlen.
           ++ rewrite app_nil_r. apply Hget.
      * assert (paper_key p ∉ map paper_key (List.filter has_doi papers)) as Hnin.
        { rewrite <- elem_of_first_seen, <- Hkeys. now apply dict_get_None. }
        rewrite bool_decide_eq_false_2 by exact Hnin.
        simpl. split; [| split; [| rewrite app_nil_r; exact Hless]].
        -- rewrite (dict_set_fresh _ _ _ He). unfold Py.dict_keys in *.
           rewrite map_app. simpl. now rewrite Hkeys.
        -- intros k. rewrite dict_get_set, List.filter_app. simpl.
           rewrite (String.eqb_sym (paper_key p) k).
           destruct (String.eqb_spec k (paper_key p)) as [-> | Hne].
           ++ now rewrite winner_snoc, <- Hget, He.
           ++ rewrite app_nil_r. apply Hget.
    + rewrite !app_nil_r. split; [exact Hkeys | split; [exact Hget |]].
      now rewrite Hless.
Qed.

(** *** The second loop *)

Lemma title_fold tt l kept :
  fold_left (title_step tt) l kept = kept ++ flat_map (survivor tt) l.
Proof.
  revert kept. induction l as [| [i [p toks]] l IH]; intros kept; simpl.
  - now rewrite app_nil_r.
  - rewrite IH. unfold survivor. simpl.
    destruct (is_dup tt i toks); simpl; [reflexivity |].
    now rewrite <- app_assoc.
Qed.

Lemma deduplicate_papers_split papers :
  deduplicate_papers papers
  = Py.dict_values (fst (doi_loop papers)) ++ title_survivors (doi_less papers).
Proof.
  unfold deduplicate_papers.
  destruct (doi_loop_invariant papers) as (_ & _ & Hless).
  destruct (doi_loop papers) as [seen without]. simpl in *. subst without.
  apply title_fold.
Qed.

Lemma survivors_sublist tt start l :
  flat_map (survivor tt) (Py.enumerate start (title_tokens l)) `sublist_of` l.
Proof.
  revert start. induction l as [| p l IH]; intros start; simpl; [constructor |].
  unfold survivor at 1. simpl.
  destruct (is_dup _ _ _); simpl; [apply sublist_cons | apply sublist_skip]; apply IH.
Qed.



Lemma is_dup_similar without_doi i p :
  without_doi !! i = Some p ->
  is_dup (title_tokens without_doi) i (Text.tokenize (Paper.title p)) = true
  <-> exists j q, j < i /\ without_doi !! j = Some q /\ similar_titles p q.
Proof.
  intros Hi. unfold is_dup. rewrite existsb_exists. split.
  - intros ([q toks] & Hin & Hsim). simpl in Hsim.
    apply list_elem_of_In, elem_of_take in Hin as (j & Hj & Hlt).
    unfold title_tokens in Hj. rewrite list_lookup_fmap in Hj.
    destruct (without_doi !! j) as [q' |] eqn:Hq; [| discriminate].
    simpl in Hj. injection Hj as <- <-.
    exists j, q'. split; [exact Hlt | split; [exact Hq |]].
    unfold similar_titles. now apply Qle_bool_iff.
  - intros (j & q & Hlt & Hj & Hsim).
    exists (q, Text.tokenize (Paper.title q)). split.
    + apply list_elem_of_In, elem_of_take. exists j. split; [| exact Hlt].
      unfold title_tokens. now rewrite list_lookup_fmap, Hj.
    + simpl. now apply Qle_bool_iff.
Qed.

Lemma survivors_from without_doi l1 l2 :
  without_doi = l1 ++ l2 ->
  flat_map (survivor (title_tokens without_doi))
    (Py.enumerate (length l1) (title_tokens l2))
  = omap (fun i => without_doi !! i)
      (List.filter (fun i => negb (dup_at without_doi i)) (seq (length l1) (length l2))).
Proof.
  revert l1. induction l2 as [| p l2 IH]; intros l1 HW; [reflexivity |].
  assert (without_doi !! length l1 = Some p) as Hp.
  { subst. now rewrite list_lookup_middle. }
  simpl. unfold survivor at 1, dup_at at 1. simpl. rewrite Hp.
  specialize (IH (l1 ++ [p])). rewrite length_app, Nat.add_1_r in IH.
  rewrite IH by (now rewrite <- app_assoc).
  destruct (is_dup _ _ _); simpl; [reflexivity |].
  now rewrite Hp.
Qed.

(** C1 (amended): the DOI-less papers that survive are the DOI-less papers,
    in input order, that are not found to be duplicates; and a DOI-less
    paper is found to be a duplicate if and only if the Jaccard similarity
    of its normalized-title token set with that of some earlier DOI-less
    paper of the input, kept or dropped, is at least 0.90. *)
Theorem deduplicate_papers_title_phase (papers : list Paper.t) :
  deduplicate_papers papers
  = Py.dict_values (fst (doi_loop papers))
    ++ omap (fun i => doi_less papers !! i)
         (List.filter (fun i => negb (dup_at (doi_less papers) i))
            (seq 0 (length (doi_less papers))))
  /\ (forall i p,
        doi_less papers !! i = Some p ->
        dup_at (doi_less papers) i = true
        <-> exists j q,
              j < i /\ doi_less papers !! j = Some q
              /\ (9 # 10 <= Text.jaccard_similarity
                              (Text.tokenize (Paper.title p))
                              (Text.tokenize (Paper.title q)))%Q).
Proof.
  split.
  - rewrite deduplicate_papers_split. f_equal.
    exact (survivors_from (doi_less papers) [] (doi_less papers) eq_refl).
  - intros i p Hi. unfold dup_at. rewrite Hi.
    now apply is_dup_similar.
Qed.

End DedupFacts.

(** ** The fallback report *)

Module FallbackFacts.
Import Research.
Import FallbackSpec.






End FallbackFacts.

(** ** The orchestrator: degraded runs and the default top-k *)

Module PipelineFacts.
Import Research.

Lemma retrieve_sources_both_fail w query max_per_source e1 e2 :
  World.search_arxiv w query max_per_source = Py.Raise e1 ->
  World.search_crossref w query max_per_source = Py.Raise e2 ->
  retrieve_sources w query max_per_source = [].
Proof. intros H1 H2. unfold retrieve_sources. simpl. now rewrite H1, H2. Qed.





Lemma length_selected_le w query top_k provider_choice :
  (0 <= Py.int_or top_k (AppSettings.top_k_synthesis (World.settings w)))%Z ->
  (Z.of_nat (length (ResearchResponse.selected
                       (run_research w query top_k provider_choice)))
   <= Py.int_or top_k (AppSettings.top_k_synthesis (World.settings w)))%Z.
Proof.
  intros Hk. unfold run_research.
  destruct (retrieve_sources _ _ _) as [| p ps]; simpl; [exact Hk |].
  rewrite RankFacts.length_rank_and_select. unfold top_k_effective.
  destruct (Z.leb_spec 0 (Py.int_or top_k (AppSettings.top_k_synthesis (World.settings w))));
    lia.
Qed.

(** C10: [top_k = 0] is falsy, so [run_research] with [top_k = 0] is
    [run_research] with no [top_k]: the effective value is the configured
    [top_k_synthesis], whose default is 10.  [ResearchRequest] validates
    nothing, so the endpoint passes a request with [top_k = 0] on and
    answers as for a request without [top_k], with at most 10 selected
    papers under the default configuration. *)
Theorem run_research_top_k_zero
    (w : World.t) (query : string) (provider_choice : option string) :
  run_research w query (Some 0%Z) provider_choice
  = run_research w query None provider_choice
  /\ top_k_effective w (Some 0%Z) = AppSettings.top_k_synthesis (World.settings w)
  /\ AppSettings.top_k_synthesis AppSettings.default = 10%Z
  /\ Api.research_endpoint w (ResearchRequest.mk query (Some 0%Z) provider_choice)
     = run_research w query None provider_choice
  /\ (AppSettings.top_k_synthesis (World.settings w) = 10%Z ->
      length (ResearchResponse.selected
                (Api.research_endpoint w
                   (ResearchRequest.mk query (Some 0%Z) provider_choice)))
      <= 10).
Proof.
  repeat split.
  intros H10. unfold Api.research_endpoint. simpl.
  pose proof (length_selected_le w query (Some 0%Z) provider_choice) as H.
  simpl in H. rewrite H10 in H. lia.
Qed.

Lemma run_research_top_k_zero_witness :
  length (ResearchResponse.selected
            (Api.research_endpoint Samples.one_hit
               (ResearchRequest.mk "graph" (Some 0%Z) None)))
  <= 10.
Proof.
  apply (run_research_top_k_zero Samples.one_hit "graph" None). reflexivity.
Defined.

Example top_k_zero_returns_a_paper :
  map Paper.title
    (ResearchResponse.selected
       (Api.research_endpoint Samples.one_hit
          (ResearchRequest.mk "graph" (Some 0%Z) None)))
  = ["graph"].
Proof. reflexivity. Qed.

End PipelineFacts.

(** ** Concrete runs of the deduplication, the ranking and the scoring *)

Module Runs.
Import Research.

(** [chain_c] is dropped because of [chain_b], which was dropped itself;
    against [chain_a], the only DOI-less paper kept before it, its
    similarity is 10/12. *)
Lemma dropped_by_a_dropped_paper_counterexample :
  deduplicate_papers [Samples.chain_a; Samples.chain_b; Samples.chain_c]
  = [Samples.chain_a]
  /\ DedupSpec.keep_against_kept []
       [Samples.chain_a; Samples.chain_b; Samples.chain_c]
     = [Samples.chain_a; Samples.chain_c]
  /\ (Text.jaccard_similarity (Text.tokenize (Paper.title Samples.chain_c))
        (Text.tokenize (Paper.title Samples.chain_a)) < 9 # 10)%Q
  /\ (9 # 10 <= Text.jaccard_similarity (Text.tokenize (Paper.title Samples.chain_c))
                  (Text.tokenize (Paper.title Samples.chain_b)))%Q
  /\ (9 # 10 <= Text.jaccard_similarity (Text.tokenize (Paper.title Samples.chain_b))
                  (Text.tokenize (Paper.title Samples.chain_a)))%Q.
Proof.
  split; [vm_compute; reflexivity |].
  split; [vm_compute; reflexivity |].
  split; [vm_compute; reflexivity |].
  split; vm_compute; discriminate.
Qed.

Lemma deduplicate_papers_title_phase_witness :
  DedupSpec.dup_at
    (DedupSpec.doi_less [Samples.chain_a; Samples.chain_b; Samples.chain_c]) 2
  = true
  <-> exists j q,
        j < 2
        /\ DedupSpec.doi_less [Samples.chain_a; Samples.chain_b; Samples.chain_c] !! j
           = Some q
        /\ (9 # 10 <= Text.jaccard_similarity
                        (Text.tokenize (Paper.title Samples.chain_c))
                        (Text.tokenize (Paper.title q)))%Q.
Proof.
  apply (DedupFacts.deduplicate_papers_title_phase
           [Samples.chain_a; Samples.chain_b; Samples.chain_c]).
  reflexivity.
Defined.


Example same_doi_keeps_longer_abstract :
  deduplicate_papers [Samples.doi_short; Samples.chain_a; Samples.doi_long]
  = [Samples.doi_long; Samples.chain_a]
  /\ deduplicate_papers [Samples.doi_long; Samples.chain_a; Samples.doi_short]
     = [Samples.doi_long; Samples.chain_a].
Proof. split; vm_compute; reflexivity. Qed.

Example same_title_keeps_first :
  deduplicate_papers
    [Samples.paper "Graph Neural Networks" "first" None;
     Samples.paper "graph   neural-networks!" "second" None]
  = [Samples.paper "Graph Neural Networks" "first" None].
Proof. vm_compute. reflexivity. Qed.

Example recency_clamped :
  recency (Paper.mk "arxiv" None "t" "" [] (Some 1800%Z) "" None None None) = 0%R
  /\ recency (Paper.mk "arxiv" None "t" "" [] (Some 2050%Z) "" None None None) = 1%R
  /\ recency (Paper.mk "arxiv" None "t" "" [] None "" None None None) = 0%R.
Proof.
  unfold recency, clamp_year. cbn [Py.int_or Paper.year Z.eqb].
  replace (Z.max (Z.min 1800 2030) 1990 - 1990)%Z with 0%Z by reflexivity.
  replace (Z.max (Z.min 2050 2030) 1990 - 1990)%Z with 40%Z by reflexivity.
  replace (Z.max (Z.min 1990 2030) 1990 - 1990)%Z with 0%Z by reflexivity.
  replace (2030 - 1990)%Z with 40%Z by reflexivity.
  repeat split; lra.
Qed.



End Runs.

(** * Further properties *)

(** ** Text utilities: tokens as words *)

Module TextExtra.
Import Text TextSpec TextWords.

Local Abbreviation fne := (List.filter nonempty).

Lemma split_by_cons p c s :
  split_by p (String c s)
  = if p c then EmptyString :: split_by p s
    else String c (hd EmptyString (split_by p s)) :: tl (split_by p s).
Proof. simpl. destruct (p c); [reflexivity |]. now destruct (split_by p s). Qed.

Lemma split_by_not_nil p s : split_by p s <> [].
Proof.
  destruct s as [| c s]; [discriminate |].
  rewrite split_by_cons. destruct (p c); discriminate.
Qed.

Lemma split_by_hd_tl p s :
  split_by p s = hd EmptyString (split_by p s) :: tl (split_by p s).
Proof. pose proof (split_by_not_nil p s). now destruct (split_by p s). Qed.

Lemma fne_hd_tl (l l' : list string) :
  hd EmptyString l = hd EmptyString l' -> fne (tl l) = fne (tl l') ->
  l <> [] -> l' <> [] -> fne l = fne l'.
Proof.
  destruct l as [| w ws], l' as [| w' ws']; try congruence.
  simpl. intros -> -> _ _. reflexivity.
Qed.

Lemma split_is_split_by sep s :
  split sep s = split_by (fun c => Ascii.eqb c sep) s.
Proof. induction s as [| c s IH]; simpl; [reflexivity | now rewrite IH]. Qed.

Lemma split_by_ext p q s :
  Forall (fun c => p c = q c) (chars s) -> split_by p s = split_by q s.
Proof.
  induction s as [| c s IH]; [reflexivity |].
  unfold chars. simpl. intros H. apply Forall_cons in H as [Hc H].
  rewrite Hc, (IH H). reflexivity.
Qed.

Lemma split_by_map_chars p g s :
  split_by p (map_chars g s)
  = map (map_chars g) (split_by (fun c => p (g c)) s).
Proof.
  induction s as [| c s IH]; [reflexivity |].
  simpl map_chars. rewrite !split_by_cons, IH.
  destruct (p (g c)); simpl; [reflexivity |].
  rewrite (split_by_hd_tl (fun c => p (g c)) s) at 1 2. reflexivity.
Qed.

(** No piece holds a cut character. *)
Lemma split_by_pieces p s :
  Forall (fun w => Forall (fun c => p c = false) (chars w)) (split_by p s).
Proof.
  induction s as [| c s IH]; [repeat constructor |].
  rewrite split_by_cons. rewrite (split_by_hd_tl p s) in IH.
  apply Forall_cons in IH as [Hh Ht].
  destruct (p c) eqn:Hc.
  - constructor; [constructor |]. rewrite split_by_hd_tl. now constructor.
  - constructor; [| exact Ht]. unfold chars. simpl. now constructor.
Qed.

Lemma map_chars_fixed g w :
  Forall (fun c => g c = c) (chars w) -> map_chars g w = w.
Proof.
  induction w as [| c w IH]; [reflexivity |].
  unfold chars. simpl. intros H. apply Forall_cons in H as [Hc H].
  now rewrite Hc, IH.
Qed.

Lemma nonempty_map_chars g w : nonempty (map_chars g w) = nonempty w.
Proof. now destruct w. Qed.

Lemma fne_map_chars g l : fne (map (map_chars g) l) = map (map_chars g) (fne l).
Proof.
  induction l as [| w l IH]; [reflexivity |].
  simpl. rewrite nonempty_map_chars, IH. now destruct (nonempty w).
Qed.

(** *** Stripping and collapsing keep the non-empty pieces *)

Lemma lstrip_pieces p s :
  fne (split_by p (lstrip_by p s)) = fne (split_by p s).
Proof.
  induction s as [| c s IH]; [reflexivity |].
  simpl lstrip_by. destruct (p c) eqn:Hc; [| reflexivity].
  rewrite IH, (split_by_cons p c s), Hc. reflexivity.
Qed.

Lemma rstrip_by_cons p c s :
  rstrip_by p (String c s)
  = if p c && negb (nonempty (rstrip_by p s)) then EmptyString
    else String c (rstrip_by p s).
Proof. simpl. destruct (rstrip_by p s), (p c); reflexivity. Qed.

Lemma rstrip_pieces p s :
  hd EmptyString (split_by p (rstrip_by p s)) = hd EmptyString (split_by p s)
  /\ fne (tl (split_by p (rstrip_by p s))) = fne (tl (split_by p s)).
Proof.
  induction s as [| c s IH]; [split; reflexivity |].
  destruct IH as [Hh Ht].
  assert (fne (split_by p (rstrip_by p s)) = fne (split_by p s)) as Hall
    by (apply fne_hd_tl; auto using split_by_not_nil).
  rewrite (split_by_cons p c s), rstrip_by_cons.
  destruct (p c) eqn:Hc; simpl andb.
  - destruct (nonempty (rstrip_by p s)) eqn:Hr; simpl negb; cbv iota.
    + rewrite (split_by_cons p c), Hc. simpl. split; [reflexivity | exact Hall].
    + simpl. split; [reflexivity |]. rewrite <- Hall.
      destruct (rstrip_by p s); [reflexivity | discriminate].
  - cbv iota. rewrite (split_by_cons p c), Hc. simpl.
    rewrite Hh. split; [reflexivity | exact Ht].
Qed.

Lemma strip_pieces s :
  fne (split_by is_space (strip s)) = fne (split_by is_space s).
Proof.
  unfold strip. rewrite <- (lstrip_pieces is_space s).
  destruct (rstrip_pieces is_space (lstrip_by is_space s)).
  apply fne_hd_tl; auto using split_by_not_nil.
Qed.

Lemma collapse_pieces b s :
  fne (split_by is_space (WS_RE_sub_from b s)) = fne (split_by is_space s)
  /\ (b = false ->
      hd EmptyString (split_by is_space (WS_RE_sub_from b s))
      = hd EmptyString (split_by is_space s)).
Proof.
  revert b. induction s as [| c s IH]; intros b; [split; reflexivity |].
  simpl WS_RE_sub_from. rewrite (split_by_cons is_space c s).
  destruct (is_space c) eqn:Hc.
  - destruct (IH true) as [Ht _]. destruct b.
    + split; [exact Ht | discriminate].
    + rewrite (split_by_cons is_space space), TextFacts.space_is_space.
      split; [exact Ht | reflexivity].
  - destruct (IH false) as [Hf Hh]. specialize (Hh eq_refl).
    rewrite (split_by_cons is_space c), Hc, Hh. split; [| reflexivity].
    simpl. f_equal.
    rewrite (split_by_hd_tl is_space (WS_RE_sub_from false s)) in Hf.
    rewrite (split_by_hd_tl is_space s) in Hf. rewrite Hh in Hf.
    simpl in Hf. destruct (nonempty _); [now injection Hf | exact Hf].
Qed.

(** On a well spaced string the only whitespace is the space. *)
Lemma spaced_split b s :
  spaced b s = true -> split space s = split_by is_space s.
Proof.
  rewrite split_is_split_by.
  revert b. induction s as [| c s IH]; intros b H; [reflexivity |].
  simpl in H. rewrite !split_by_cons.
  destruct (is_space c) eqn:Hc.
  - apply andb_prop in H as [H1 H]. apply andb_prop in H1 as [Hsp _].
    rewrite Hsp, (IH _ H). reflexivity.
  - apply andb_prop in H as [_ H]. rewrite (IH _ H).
    destruct (Ascii.eqb_spec c space) as [-> | _]; [| reflexivity].
    rewrite TextFacts.space_is_space in Hc. discriminate.
Qed.

Lemma punct_is_space c :
  is_space (if is_alnum_lc c || is_space c then c else space)
  = negb (is_alnum_lc c).
Proof.
  destruct (is_alnum_lc c) eqn:Ha; simpl.
  - now apply TextFacts.alnum_not_space.
  - destruct (is_space c) eqn:Hs; [exact Hs | reflexivity].
Qed.

Lemma tokens_are_words x :
  fne (split space (normalize_title x)) = words x.
Proof.
  rewrite (spaced_split true) by apply TextFacts.normalize_title_spaced.
  unfold normalize_title. rewrite strip_pieces.
  unfold WS_RE_sub. rewrite (proj1 (collapse_pieces false _)).
  unfold PUNCT_RE_sub. rewrite split_by_map_chars.
  rewrite (split_by_ext _ (fun c => negb (is_alnum_lc c)))
    by (apply Forall_forall; intros c _; apply punct_is_space).
  rewrite fne_map_chars.
  assert (forall l : list string,
             Forall (fun w => Forall (fun c => negb (is_alnum_lc c) = false) (chars w)) l ->
             map (map_chars (fun c => if is_alnum_lc c || is_space c then c else space)) l = l)
    as Hfix.
  { induction 1 as [| w l Hw _ IH]; [reflexivity |]. simpl. rewrite IH. f_equal.
    apply map_chars_fixed. eapply Forall_impl; [exact Hw |].
    intros c Hc. simpl in Hc. apply negb_false_iff in Hc. now rewrite Hc. }
  rewrite Hfix.
  2:{ pose proof (split_by_pieces (fun c => negb (is_alnum_lc c)) (lower x)) as H.
      rewrite Forall_forall in H |- *. intros w Hw. apply H.
      apply list_elem_of_In. apply list_elem_of_In in Hw.
      apply filter_In in Hw. tauto. }
  unfold lower at 1. rewrite split_by_map_chars, fne_map_chars. reflexivity.
Qed.

Lemma tokenize_is_words_aux x :
  List.filter nonempty (split space (normalize_title x)) = words x
  /\ tokenize x = list_to_set (words x).
Proof.
  split; [apply tokens_are_words |].
  unfold tokenize. now rewrite tokens_are_words.
Qed.


Lemma split_by_app p a c b :
  p c = true ->
  split_by p (a +:+ String c b) = split_by p a ++ split_by p b.
Proof.
  intros Hc. induction a as [| d a IH].
  - change (EmptyString +:+ String c b) with (String c b).
    now rewrite split_by_cons, Hc.
  - change (String d a +:+ String c b) with (String d (a +:+ String c b)).
    rewrite !split_by_cons, IH.
    destruct (p d); [reflexivity |].
    rewrite (split_by_hd_tl p a) at 1 2. reflexivity.
Qed.

Lemma words_app a c b :
  is_token_char c = false -> words (a +:+ String c b) = words a ++ words b.
Proof.
  intros Hc. unfold words.
  rewrite split_by_app by (now rewrite Hc).
  now rewrite List.filter_app, map_app.
Qed.

(** X2: joining two texts with a character that is no letter or digit joins
    their tokens: the token set of [a c b] is the union of the token sets of
    [a] and [b]. *)
Theorem tokenize_union (a b : string) (c : ascii) :
  is_token_char c = false ->
  tokenize (a +:+ String c b) = tokenize a ∪ tokenize b.
Proof.
  intros Hc.
  rewrite !(proj2 (tokenize_is_words_aux _)), words_app by exact Hc.
  apply list_to_set_app_L.
Qed.

Lemma tokenize_union_witness :
  tokenize ("Graph" +:+ String "-"%char "Neural")
  = tokenize "Graph" ∪ tokenize "Neural".
Proof. apply (tokenize_union "Graph" "Neural" "-"%char). reflexivity. Defined.

Lemma chars_map_chars g w : chars (map_chars g w) = map g (chars w).
Proof. induction w as [| c w IH]; [reflexivity |]. unfold chars in *. simpl. now rewrite IH. Qed.

(** X3: every token is a non-empty string of [a-z0-9]. *)
Theorem tokens_lower_alnum (x t : string) :
  t ∈ tokenize x ->
  nonempty t = true /\ Forall (fun c => is_alnum_lc c = true) (chars t).
Proof.
  rewrite (proj2 (tokenize_is_words_aux x)), elem_of_list_to_set.
  unfold words. rewrite list_elem_of_fmap. intros (w & -> & Hw).
  apply list_elem_of_In, filter_In in Hw as [Hin Hne].
  split; [unfold lower; now rewrite nonempty_map_chars |].
  pose proof (split_by_pieces (fun c => negb (is_token_char c)) x) as Hp.
  rewrite Forall_forall in Hp. specialize (Hp w (proj2 (list_elem_of_In _ _) Hin)).
  unfold lower. rewrite chars_map_chars, Forall_fmap.
  eapply Forall_impl; [exact Hp |]. intros c Hc. simpl in *.
  now apply negb_false_iff in Hc.
Qed.

Lemma tokens_lower_alnum_witness :
  nonempty "neural" = true
  /\ Forall (fun c => is_alnum_lc c = true) (chars "neural").
Proof.
  apply (tokens_lower_alnum "Graph-NEURAL nets" "neural").
  apply elem_of_list_to_set. vm_compute. right. left.
Defined.

(** *** The normal form of a title *)

Lemma spaced_chars b s :
  spaced b s = true ->
  Forall (fun c => is_alnum_lc c = true \/ c = space) (chars s).
Proof.
  revert b. induction s as [| c s IH]; intros b H; [constructor |].
  simpl in H. unfold chars. simpl. destruct (is_space c).
  - apply andb_prop in H as [H1 H]. apply andb_prop in H1 as [Hc _].
    constructor; [right; now apply Ascii.eqb_eq | exact (IH _ H)].
  - apply andb_prop in H as [Ha H]. constructor; [now left | exact (IH _ H)].
Qed.

Lemma spaced_no_double b s i :
  spaced b s = true ->
  ~ (chars s !! i = Some space /\ chars s !! S i = Some space).
Proof.
  revert b i. induction s as [| c s IH]; intros b i H [H1 H2]; [discriminate |].
  simpl in H. destruct i as [| i].
  - unfold chars in H1, H2. simpl in H1, H2. injection H1 as ->.
    rewrite TextFacts.space_is_space in H.
    apply andb_prop in H as [_ H].
    destruct s as [| d s]; [discriminate |].
    simpl in H2. injection H2 as ->.
    simpl in H. discriminate.
  - destruct (is_space c); apply andb_prop in H as [_ H];
      exact (IH _ i H (conj H1 H2)).
Qed.

Lemma closed_last s : closed s = true -> last (chars s) <> Some space.
Proof.
  induction s as [| c s IH]; [discriminate |].
  intros H. destruct s as [| d s].
  - simpl in H. unfold chars. simpl. intros [= ->].
    rewrite TextFacts.space_is_space in H. discriminate.
  - change (chars (String c (String d s))) with (c :: chars (String d s)).
    change (last (c :: chars (String d s))) with (last (chars (String d s))).
    apply IH. exact H.
Qed.

(** X4: a normalized title holds only [a-z0-9] and spaces, does not start
    or end with a space, and has no two spaces in a row. *)
Theorem normalize_title_normal_form (x : string) :
  Forall (fun c => is_alnum_lc c = true \/ c = space) (chars (normalize_title x))
  /\ head (chars (normalize_title x)) <> Some space
  /\ last (chars (normalize_title x)) <> Some space
  /\ (forall i, ~ (chars (normalize_title x) !! i = Some space
                   /\ chars (normalize_title x) !! S i = Some space)).
Proof.
  pose proof (TextFacts.normalize_title_spaced x) as Hs.
  pose proof (TextFacts.normalize_title_closed x) as Hc.
  split; [exact (spaced_chars _ _ Hs) |].
  split; [| split; [exact (closed_last _ Hc) |
                    intros i; exact (spaced_no_double _ _ i Hs)]].
  destruct (normalize_title x) as [| c s]; [discriminate |].
  unfold chars. simpl. intros [= ->]. simpl in Hs. discriminate.
Qed.

(** *** Splitting and joining *)

Lemma split_not_nil sep s : split sep s <> [].
Proof. rewrite split_is_split_by. apply split_by_not_nil. Qed.

Lemma join_cons sep w ws :
  ws <> [] -> Py.join sep (w :: ws) = w +:+ sep +:+ Py.join sep ws.
Proof. now destruct ws. Qed.

Lemma join_split sep s :
  Py.join (String sep EmptyString) (split sep s) = s.
Proof.
  induction s as [| c s IH]; [reflexivity |].
  rewrite split_is_split_by in *. rewrite split_by_cons.
  destruct (Ascii.eqb_spec c sep) as [-> | Hne].
  - rewrite join_cons by apply split_by_not_nil. now rewrite IH.
  - rewrite (split_by_hd_tl _ s) in IH.
    destruct (tl (split_by (fun c0 => Ascii.eqb c0 sep) s)) as [| w ws] eqn:Ht.
    + exact (f_equal (String c) IH).
    + rewrite join_cons by discriminate. rewrite join_cons in IH by discriminate.
      exact (f_equal (String c) IH).
Qed.

Lemma split_app_sep sep w s :
  Forall (fun c => c <> sep) (chars w) ->
  split sep (w +:+ String sep s) = w :: split sep s.
Proof.
  intros Hw. rewrite !split_is_split_by.
  rewrite split_by_app by apply Ascii.eqb_refl. 
  assert (split_by (fun c => Ascii.eqb c sep) w = [w]) as ->; [| reflexivity].
  induction w as [| c w IH]; [reflexivity |].
  unfold chars in Hw. simpl in Hw. apply Forall_cons in Hw as [Hc Hw].
  rewrite split_by_cons, (IH Hw).
  destruct (Ascii.eqb_spec c sep); [contradiction | reflexivity].
Qed.

(** Splitting and joining on a character are inverse to each other:
    joining the pieces of [s] gives [s] back, and splitting the join of a
    non-empty list of pieces that do not hold the separator gives the
    pieces back. *)
Theorem split_join_round_trip (sep : ascii) (s : string) (pieces : list string) :
  Py.join (String sep EmptyString) (split sep s) = s
  /\ (pieces <> [] ->
      Forall (fun w => Forall (fun c => c <> sep) (chars w)) pieces ->
      split sep (Py.join (String sep EmptyString) pieces) = pieces).
Proof.
  split; [apply join_split |].
  induction pieces as [| w ws IH]; [congruence |].
  intros _ H. apply Forall_cons in H as [Hw Hws].
  destruct ws as [| w' ws].
  - simpl. rewrite split_is_split_by. clear IH Hws.
    induction w as [| c w IHw]; [reflexivity |].
    unfold chars in Hw. simpl in Hw. apply Forall_cons in Hw as [Hc Hw].
    rewrite split_by_cons, (IHw Hw).
    destruct (Ascii.eqb_spec c sep); [contradiction | reflexivity].
  - rewrite join_cons by discriminate.
    change (String sep EmptyString +:+ Py.join (String sep EmptyString) (w' :: ws))
      with (String sep (Py.join (String sep EmptyString) (w' :: ws))).
    rewrite split_app_sep by exact Hw.
    now rewrite IH.
Qed.

Lemma split_join_round_trip_witness :
  split space (Py.join (String space EmptyString) ["graph"; ""; "nets"])
  = ["graph"; ""; "nets"].
Proof.
  apply (split_join_round_trip space "" ["graph"; ""; "nets"]); [discriminate |].
  repeat constructor; discriminate.
Defined.

(** *** The Jaccard similarity *)

Lemma Zpos_of_nat (u : nat) : u <> 0 -> Z.pos (Pos.of_nat u) = Z.of_nat u.
Proof. intros Hu. now rewrite <- positive_nat_Z, Nat2Pos.id. Qed.

Lemma jaccard_nonempty (a b : gset string) :
  a <> ∅ -> b <> ∅ ->
  jaccard_similarity a b = (Z.of_nat (size (a ∩ b)) # Pos.of_nat (size (a ∪ b)))%Q
  /\ size (a ∪ b) <> 0 /\ size (a ∩ b) <= size (a ∪ b).
Proof.
  intros Ha Hb. unfold jaccard_similarity.
  rewrite !bool_decide_eq_false_2 by assumption. simpl.
  split; [reflexivity |]. split.
  - intros Hz. apply size_empty_iff in Hz. apply Ha. set_solver.
  - apply subseteq_size. set_solver.
Qed.

(** X5: the Jaccard similarity is symmetric and lies between 0 and 1; it
    is 1 exactly for equal sets (two empty sets included) and 0 exactly for
    disjoint sets that are not both empty. *)
Theorem jaccard_similarity_range (a b : gset string) :
  jaccard_similarity a b = jaccard_similarity b a
  /\ (0 <= jaccard_similarity a b <= 1)%Q
  /\ ((jaccard_similarity a b == 1)%Q <-> a = b)
  /\ ((jaccard_similarity a b == 0)%Q <-> a ∩ b = ∅ /\ a ∪ b <> ∅).
Proof.
  destruct (decide (a = ∅)) as [Ha | Ha], (decide (b = ∅)) as [Hb | Hb].
  - subst. unfold jaccard_similarity. simpl.
    repeat split; try easy; intros; set_solver.
  - subst. unfold jaccard_similarity.
    rewrite (bool_decide_eq_false_2 (b = ∅)) by exact Hb. simpl.
    repeat split; try easy; intros; set_solver.
  - subst. unfold jaccard_similarity.
    rewrite (bool_decide_eq_false_2 (a = ∅)) by exact Ha. simpl.
    repeat split; try easy; intros; set_solver.
  - destruct (jaccard_nonempty a b Ha Hb) as (Hab & Hu & Hle).
    destruct (jaccard_nonempty b a Hb Ha) as (Hba & _ & _).
    split; [| split; [| split]].
    + rewrite Hab, Hba.
      now rewrite (comm_L (∩) a b), (comm_L (∪) a b).
    + rewrite Hab. unfold Qle. simpl. rewrite Zpos_of_nat by exact Hu. lia.
    + rewrite Hab. unfold Qeq. simpl. rewrite Zpos_of_nat by exact Hu.
      split.
      * intros H. assert (size (a ∪ b) <= size (a ∩ b)) as Hge by lia.
        assert (a ∩ b ≡ a ∪ b) as Heq
          by (apply set_subseteq_size_equiv; [set_solver | exact Hge]).
        apply leibniz_equiv. set_solver.
      * intros ->. replace (b ∩ b) with b by set_solver.
        replace (b ∪ b) with b by set_solver. lia.
    + rewrite Hab. unfold Qeq. simpl. split.
      * intros H. split; [| set_solver].
        apply leibniz_equiv, size_empty_iff. lia.
      * intros [H _]. rewrite H, size_empty. reflexivity.
Qed.

End TextExtra.

(** ** Deduplication: size, survivors, idempotence *)

Module DedupExtra.
Import Research DedupSpec DedupEntries.

(** *** What the first loop keeps *)

Lemma length_dict_set {V} (k : string) (v : V) (d : Py.dict V) :
  length (Py.dict_set k v d) <= S (length d).
Proof.
  induction d as [| [k' v'] d IH]; simpl; [lia |].
  destruct (String.eqb k k'); simpl; lia.
Qed.

Lemma doi_step_length st p :
  length (fst (doi_step st p)) + length (snd (doi_step st p))
  <= S (length (fst st) + length (snd st)).
Proof.
  destruct st as [seen without]. unfold doi_step.
  destruct (Py.truthy_str (Paper.doi p)); simpl.
  - pose proof (length_dict_set (doi_key (Py.str_or (Paper.doi p) "")) p seen).
    destruct (Py.dict_get _ seen) as [e |]; [| simpl; lia].
    destruct (_ <? _)%nat; simpl; lia.
  - rewrite length_app. simpl. lia.
Qed.

Lemma doi_fold_length papers st :
  length (fst (fold_left doi_step papers st))
  + length (snd (fold_left doi_step papers st))
  <= length (fst st) + length (snd st) + length papers.
Proof.
  revert st. induction papers as [| p papers IH]; intros st; simpl; [lia |].
  specialize (IH (doi_step st p)). pose proof (doi_step_length st p). lia.
Qed.

Lemma dict_set_entries (Q : string * Paper.t -> Prop) k v d :
  Forall Q d -> (forall k', String.eqb k k' = true -> Q (k', v)) -> Q (k, v) ->
  Forall Q (Py.dict_set k v d).
Proof.
  intros Hd Hk Hkv. induction Hd as [| [k' v'] d Hh Hd IH]; simpl.
  - repeat constructor. exact Hkv.
  - destruct (String.eqb k k') eqn:E; constructor; auto.
Qed.

Lemma doi_step_entries papers st p :
  p ∈ papers -> Forall (entry_ok papers) (fst st) ->
  Forall (entry_ok papers) (fst (doi_step st p)).
Proof.
  intros Hp Hst. destruct st as [seen without]. unfold doi_step.
  fold (has_doi p). destruct (has_doi p) eqn:Hd; [| exact Hst].
  change (doi_key (Py.str_or (Paper.doi p) "")) with (paper_key p).
  assert (Forall (entry_ok papers) (Py.dict_set (paper_key p) p seen)) as Hset.
  { apply dict_set_entries; [exact Hst | |].
    - intros k' E. apply String.eqb_eq in E. subst k'. repeat split; auto.
    - repeat split; auto. }
  destruct (Py.dict_get _ seen) as [e |]; [| exact Hset].
  destruct (_ <? _)%nat; [exact Hset | exact Hst].
Qed.

Lemma doi_fold_entries papers l st :
  (forall p, p ∈ l -> p ∈ papers) -> Forall (entry_ok papers) (fst st) ->
  Forall (entry_ok papers) (fst (fold_left doi_step l st)).
Proof.
  revert st. induction l as [| p l IH]; intros st Hl Hst; [exact Hst |].
  simpl. apply IH.
  - intros q Hq. apply Hl. now right.
  - apply doi_step_entries; [apply Hl; now left | exact Hst].
Qed.

Lemma doi_loop_entries papers :
  Forall (entry_ok papers) (fst (doi_loop papers)).
Proof. apply doi_fold_entries; [auto | constructor]. Qed.

Lemma title_survivors_sublist without_doi :
  title_survivors without_doi `sublist_of` without_doi.
Proof. apply DedupFacts.survivors_sublist. Qed.

Lemma doi_less_has_no_doi papers p : p ∈ doi_less papers -> has_doi p = false.
Proof.
  unfold doi_less. intros H. apply list_elem_of_In, filter_In in H as [_ H].
  now apply negb_true_iff.
Qed.

Lemma doi_less_elem papers p : p ∈ doi_less papers -> p ∈ papers.
Proof.
  unfold doi_less. intros H. apply list_elem_of_In, filter_In in H as [H _].
  now apply list_elem_of_In.
Qed.

Lemma deduplicate_papers_length papers :
  length (deduplicate_papers papers) <= length papers.
Proof.
  rewrite DedupFacts.deduplicate_papers_split.
  rewrite length_app. unfold Py.dict_values. rewrite length_map.
  pose proof (doi_fold_length papers ([], [])) as H. simpl in H.
  fold (doi_loop papers) in H.
  destruct (DedupFacts.doi_loop_invariant papers) as (_ & _ & Hless).
  rewrite Hless in H.
  pose proof (sublist_length _ _ (title_survivors_sublist (doi_less papers))).
  lia.
Qed.

Lemma deduplicate_papers_elem papers p :
  p ∈ deduplicate_papers papers -> p ∈ papers.
Proof.
  rewrite DedupFacts.deduplicate_papers_split.
  intros Hp. apply elem_of_app in Hp as [Hp | Hp].
  - unfold Py.dict_values in Hp. apply list_elem_of_fmap in Hp as (kv & -> & Hkv).
    pose proof (doi_loop_entries papers) as H. rewrite Forall_forall in H.
    apply (H kv Hkv).
  - apply doi_less_elem.
    exact (elem_of_sublist _ _ _ Hp (title_survivors_sublist _)).
Qed.

(** X6: deduplication never returns more papers than it was given, and
    every paper it returns is one of the input papers, whole. *)
Theorem deduplicate_papers_shrinks (papers : list Paper.t) :
  length (deduplicate_papers papers) <= length papers
  /\ (forall p, p ∈ deduplicate_papers papers -> p ∈ papers).
Proof.
  split; [apply deduplicate_papers_length |].
  intros p. apply deduplicate_papers_elem.
Qed.

Lemma deduplicate_papers_shrinks_witness :
  Samples.doi_long ∈ [Samples.doi_short; Samples.chain_a; Samples.doi_long].
Proof.
  apply (deduplicate_papers_shrinks
           [Samples.doi_short; Samples.chain_a; Samples.doi_long]).
  vm_compute. left.
Defined.

(** *** The second loop, one paper at a time *)

Lemma survivors_prefix_irrelevant tt x l1 l2 :
  tt = l1 ++ l2 ->
  flat_map (survivor (tt ++ [x])) (Py.enumerate (length l1) l2)
  = flat_map (survivor tt) (Py.enumerate (length l1) l2).
Proof.
  revert l1. induction l2 as [| y l2 IH]; intros l1 Htt; [reflexivity |].
  simpl. f_equal.
  - unfold survivor, is_dup. simpl.
    rewrite take_app_le; [reflexivity |].
    subst tt. rewrite length_app. lia.
  - specialize (IH (l1 ++ [y])). rewrite length_app, Nat.add_1_r in IH.
    apply IH. now rewrite <- app_assoc.
Qed.

Lemma existsb_fmap {A B} (f : B -> bool) (g : A -> B) l :
  existsb f (map g l) = existsb (fun x => f (g x)) l.
Proof. induction l as [| x l IH]; simpl; [| rewrite IH]; reflexivity. Qed.

Lemma title_survivors_snoc without_doi p :
  title_survivors (without_doi ++ [p])
  = title_survivors without_doi
    ++ (if resembles_any p without_doi then [] else [p]).
Proof.
  unfold title_survivors, title_tokens. rewrite map_app. simpl map at 2.
  set (tt := map (fun q => (q, Text.tokenize (Paper.title q))) without_doi).
  rewrite PyFacts.enumerate_app, flat_map_app. f_equal.
  - exact (survivors_prefix_irrelevant tt _ [] tt eq_refl).
  - simpl. rewrite app_nil_r. unfold survivor, is_dup. simpl.
    rewrite take_app_length. unfold resembles_any, tt.
    rewrite existsb_fmap. reflexivity.
Qed.

Lemma resembles_any_elem p l :
  resembles_any p l = true <-> exists q, q ∈ l /\ similar_titles p q.
Proof.
  unfold resembles_any. rewrite existsb_exists. split.
  - intros (q & Hin & Hs). exists q. split; [now apply list_elem_of_In |].
    unfold similar_titles. now apply Qle_bool_iff.
  - intros (q & Hin & Hs). exists q. split; [now apply list_elem_of_In |].
    now apply Qle_bool_iff.
Qed.

Lemma resembles_any_sublist p l l' :
  l `sublist_of` l' -> resembles_any p l' = false -> resembles_any p l = false.
Proof.
  intros Hsub Hf. destruct (resembles_any p l) eqn:E; [| reflexivity].
  apply resembles_any_elem in E as (q & Hq & Hs).
  assert (resembles_any p l' = true) as Ht.
  { apply resembles_any_elem. exists q. split; [| exact Hs].
    exact (elem_of_sublist _ _ _ Hq Hsub). }
  congruence.
Qed.

Lemma title_survivors_idempotent without_doi :
  title_survivors (title_survivors without_doi) = title_survivors without_doi.
Proof.
  induction without_doi as [| p w IH] using rev_ind; [reflexivity |].
  rewrite title_survivors_snoc.
  destruct (resembles_any p w) eqn:E.
  - now rewrite app_nil_r.
  - rewrite title_survivors_snoc, IH.
    now rewrite (resembles_any_sublist p _ w (title_survivors_sublist w) E).
Qed.

(** Each survivor is unlike every survivor before it. *)
Lemma title_survivors_unlike without_doi l1 q l2 :
  title_survivors without_doi = l1 ++ q :: l2 ->
  Forall (fun p => ~ similar_titles q p) l1.
Proof.
  revert l1 q l2.
  induction without_doi as [| p w IH] using rev_ind; intros l1 q l2.
  - destruct l1; discriminate.
  - rewrite title_survivors_snoc.
    destruct (resembles_any p w) eqn:E; [rewrite app_nil_r; apply IH |].
    intros Heq.
    destruct l2 as [| r l2 _] using rev_ind.
    + apply app_inj_tail in Heq as [<- <-].
      rewrite Forall_forall. intros x Hx Hs.
      assert (resembles_any p w = true) as Ht; [| congruence].
      apply resembles_any_elem. exists x. split; [| exact Hs].
      exact (elem_of_sublist _ _ _ Hx (title_survivors_sublist w)).
    + rewrite app_comm_cons, app_assoc in Heq.
      apply app_inj_tail in Heq as [Heq _].
      exact (IH _ _ _ Heq).
Qed.

(** *** Running the first loop on its own result *)

Lemma doi_fold_fresh kept acc without :
  Forall (fun v => has_doi v = true) kept ->
  NoDup (map paper_key kept) ->
  (forall v, v ∈ kept -> paper_key v ∉ Py.dict_keys acc) ->
  fold_left doi_step kept (acc, without)
  = (acc ++ map (fun v => (paper_key v, v)) kept, without).
Proof.
  revert acc. induction kept as [| v kept IH]; intros acc Hd Hnd Hfresh.
  - simpl. now rewrite app_nil_r.
  - apply Forall_cons in Hd as [Hv Hd]. simpl in Hnd.
    apply NoDup_cons in Hnd as [Hnin Hnd].
    assert (Py.dict_get (paper_key v) acc = None) as Hget
      by (apply DedupFacts.dict_get_None, Hfresh; now left).
    assert (doi_step (acc, without) v = (acc ++ [(paper_key v, v)], without))
      as Hstep.
    { unfold doi_step. fold (has_doi v). rewrite Hv.
      change (doi_key (Py.str_or (Paper.doi v) "")) with (paper_key v).
      now rewrite Hget, (DedupFacts.dict_set_fresh _ _ _ Hget). }
    change (fold_left doi_step (v :: kept) (acc, without))
      with (fold_left doi_step kept (doi_step (acc, without) v)).
    rewrite Hstep.
    rewrite IH; [now rewrite <- app_assoc | exact Hd | exact Hnd |].
    intros u Hu. unfold Py.dict_keys. rewrite map_app. simpl.
    rewrite not_elem_of_app. split; [apply Hfresh; now right |].
    intros Hin. apply list_elem_of_singleton in Hin.
    apply Hnin. rewrite <- Hin. apply list_elem_of_fmap. now exists u.
Qed.

Lemma doi_fold_doi_less rest seen without :
  Forall (fun v => has_doi v = false) rest ->
  fold_left doi_step rest (seen, without) = (seen, without ++ rest).
Proof.
  revert without. induction rest as [| v rest IH]; intros without H.
  - simpl. now rewrite app_nil_r.
  - apply Forall_cons in H as [Hv H].
    assert (doi_step (seen, without) v = (seen, without ++ [v])) as Hstep
      by (unfold doi_step; fold (has_doi v); now rewrite Hv).
    change (fold_left doi_step (v :: rest) (seen, without))
      with (fold_left doi_step rest (doi_step (seen, without) v)).
    rewrite Hstep.
    rewrite IH by exact H. now rewrite <- app_assoc.
Qed.

Lemma entries_by_key papers (d : Py.dict Paper.t) :
  Forall (entry_ok papers) d ->
  d = map (fun v => (paper_key v, v)) (Py.dict_values d)
  /\ map paper_key (Py.dict_values d) = Py.dict_keys d
  /\ Forall (fun v => has_doi v = true) (Py.dict_values d).
Proof.
  induction 1 as [| [k v] d (Hd & Hk & _) _ (IH1 & IH2 & IH3)]; [repeat split; constructor |].
  simpl in *. subst k. rewrite <- IH1. unfold Py.dict_keys, Py.dict_values in *.
  simpl. rewrite IH2. repeat split. now constructor.
Qed.

Lemma survivors_have_no_doi papers :
  Forall (fun v => has_doi v = false) (title_survivors (doi_less papers)).
Proof.
  apply Forall_forall. intros p Hp. apply (doi_less_has_no_doi papers).
  exact (elem_of_sublist _ _ _ Hp (title_survivors_sublist _)).
Qed.

Lemma doi_loop_of_result papers :
  doi_loop (deduplicate_papers papers)
  = (fst (doi_loop papers), title_survivors (doi_less papers)).
Proof.
  rewrite DedupFacts.deduplicate_papers_split.
  destruct (entries_by_key papers _ (doi_loop_entries papers)) as (Hd & Hk & Hh).
  destruct (DedupFacts.doi_loop_invariant papers) as (Hkeys & _ & _).
  unfold doi_loop at 1. rewrite fold_left_app.
  rewrite doi_fold_fresh.
  - simpl app. rewrite <- Hd. now rewrite doi_fold_doi_less by apply survivors_have_no_doi.
  - exact Hh.
  - rewrite Hk, Hkeys. apply DedupFacts.NoDup_first_seen.
  - intros v _. apply not_elem_of_nil.
Qed.

(** X7: deduplication is idempotent: deduplicating a deduplicated list
    returns it unchanged. *)
Theorem deduplicate_papers_idempotent (papers : list Paper.t) :
  deduplicate_papers (deduplicate_papers papers) = deduplicate_papers papers.
Proof.
  rewrite (DedupFacts.deduplicate_papers_split (deduplicate_papers papers)).
  destruct (DedupFacts.doi_loop_invariant (deduplicate_papers papers))
    as (_ & _ & Hless).
  rewrite <- Hless, doi_loop_of_result. simpl.
  rewrite title_survivors_idempotent.
  symmetry. apply DedupFacts.deduplicate_papers_split.
Qed.

Lemma filter_all {A} (f : A -> bool) l :
  Forall (fun x => f x = true) l -> List.filter f l = l.
Proof. induction 1 as [| x l Hx _ IH]; simpl; [| rewrite Hx, IH]; reflexivity. Qed.

Lemma filter_none {A} (f : A -> bool) l :
  Forall (fun x => f x = false) l -> List.filter f l = [].
Proof. induction 1 as [| x l Hx _ IH]; simpl; [| rewrite Hx, IH]; reflexivity. Qed.

(** X8: in the result no two papers share a DOI key, and no DOI-less paper
    reaches the similarity threshold against a DOI-less paper listed before
    it. *)
Theorem deduplicate_papers_distinct (papers : list Paper.t) :
  NoDup (map paper_key (doi_bearing (deduplicate_papers papers)))
  /\ (forall i j p q,
        i < j ->
        doi_less (deduplicate_papers papers) !! i = Some p ->
        doi_less (deduplicate_papers papers) !! j = Some q ->
        (Text.jaccard_similarity (Text.tokenize (Paper.title q))
           (Text.tokenize (Paper.title p)) < 9 # 10)%Q).
Proof.
  destruct (entries_by_key papers _ (doi_loop_entries papers)) as (_ & Hk & Hh).
  destruct (DedupFacts.doi_loop_invariant papers) as (Hkeys & _ & _).
  split.
  - rewrite DedupFacts.deduplicate_papers_split.
    unfold doi_bearing. rewrite List.filter_app.
    rewrite (filter_all _ _ Hh), (filter_none _ _ (survivors_have_no_doi papers)).
    rewrite app_nil_r, Hk, Hkeys. apply DedupFacts.NoDup_first_seen.
  - destruct (DedupFacts.doi_loop_invariant (deduplicate_papers papers))
      as (_ & _ & Hless).
    rewrite <- Hless, doi_loop_of_result. simpl.
    intros i j p q Hij Hi Hj.
    pose proof (title_survivors_unlike (doi_less papers)
                  (take j (title_survivors (doi_less papers))) q
                  (drop (S j) (title_survivors (doi_less papers)))) as H.
    rewrite Forall_forall in H.
    apply Qnot_le_lt. apply (H (eq_sym (take_drop_middle _ _ _ Hj)) p).
    apply list_elem_of_lookup. exists i. now rewrite lookup_take_lt.
Qed.

Lemma deduplicate_papers_distinct_witness :
  (Text.jaccard_similarity (Text.tokenize (Paper.title Samples.graph_neural))
     (Text.tokenize (Paper.title Samples.graph)) < 9 # 10)%Q.
Proof.
  apply (proj2 (deduplicate_papers_distinct
                  [Samples.graph; Samples.doi_short; Samples.graph_neural]) 0 1);
    [lia | reflexivity | reflexivity].
Defined.

End DedupExtra.

(** ** Scoring: bounds and dominance *)

Module ScoreExtra.
Import Research ScoreSpec.





Lemma exp_minus_06 : (exp (- 0.6) < 2 / 3)%R.
Proof.
  assert (1 + 0.6 < exp 0.6)%R as H by (apply exp_ineq1; lra).
  replace (- 0.6)%R with (- (0.6))%R by lra. rewrite exp_Ropp.
  assert (0 < exp 0.6)%R as Hpos by apply exp_pos.
  apply (Rmult_lt_reg_r (exp 0.6)); [exact Hpos |].
  rewrite Rinv_l by lra. lra.
Qed.

(** X10: a paper with at least one query token in its title scores
    strictly above every paper that shares no token with the query, in
    title or abstract, whatever the two years are. *)
Theorem title_match_beats_no_match (query : string) (p p' : Paper.t) :
  1 <= title_overlap query p ->
  title_overlap query p' = 0 ->
  abstract_overlap query p' = 0 ->
  (score_paper query p' < score_paper query p)%R.
Proof.
  intros H1 Ht Ha. rewrite !ScoreFacts.score_paper_unfold. rewrite Ht, Ha.
  set (n := 2 * title_overlap query p + abstract_overlap query p).
  assert (2 <= n) as Hn by (unfold n; lia).
  change (INR (2 * 0 + 0)) with 0%R. rewrite Rmult_0_r, exp_0.
  assert (exp (- 0.3 * INR n) <= exp (- 0.6))%R as Hexp.
  { apply le_INR in Hn. simpl in Hn.
    destruct (Req_dec (- 0.3 * INR n) (- 0.6)) as [-> | Hne]; [lra |].
    left. apply exp_increasing. lra. }
  pose proof exp_minus_06.
  assert (0 <= IZR (clamp (year_or_1990 p) 1990 2030 - 1990) / 40 <= 1)%R as Hp.
  { unfold clamp.
    assert (0 <= Z.max 1990 (Z.min (year_or_1990 p) 2030) - 1990 <= 40)%Z
      as [H0 H40] by lia.
    apply IZR_le in H0, H40. lra. }
  assert (0 <= IZR (clamp (year_or_1990 p') 1990 2030 - 1990) / 40 <= 1)%R as Hp'.
  { unfold clamp.
    assert (0 <= Z.max 1990 (Z.min (year_or_1990 p') 2030) - 1990 <= 40)%Z
      as [H0 H40] by lia.
    apply IZR_le in H0, H40. lra. }
  lra.
Qed.

Lemma title_match_beats_no_match_witness :
  (score_paper "graph" (Samples.paper "quantum" "" None)
   < score_paper "graph" Samples.graph_neural)%R.
Proof.
  apply (title_match_beats_no_match "graph" Samples.graph_neural
           (Samples.paper "quantum" "" None));
    [vm_compute; lia | vm_compute; reflexivity | vm_compute; reflexivity].
Defined.



End ScoreExtra.

(** ** Ranking: how the cut depends on [top_k] *)

Module RankExtra.
Import Research RankSpec.

Lemma rank_and_select_elem query papers top_k p :
  p ∈ rank_and_select query papers top_k -> p ∈ papers.
Proof.
  rewrite RankFacts.rank_and_select_sorted_prefix. intros Hp.
  destruct (PyFacts.slice_to_prefix top_k (sort_desc (lt_score query) papers))
    as [rest Hrest].
  rewrite <- (sort_desc_perm (lt_score query) papers), Hrest.
  apply elem_of_app. now left.
Qed.

Lemma take_prefix_take {A} (l : list A) n m :
  n <= m -> take n l `prefix_of` take m l.
Proof.
  revert n m. induction l as [| x l IH]; intros [| n] [| m] Hnm; simpl;
    try apply prefix_nil; try lia.
  apply prefix_cons, IH. lia.
Qed.

(** X12: for [0 <= k <= k'] the papers selected with [top_k = k] are the
    first papers selected with [top_k = k']: raising [top_k] only appends.
    Once [top_k] reaches the number of papers, every paper is returned. *)
Theorem rank_and_select_grows
    (query : string) (papers : list Paper.t) (k k' : Z) :
  (0 <= k <= k')%Z ->
  rank_and_select query papers k `prefix_of` rank_and_select query papers k'
  /\ ((Z.of_nat (length papers) <= k)%Z ->
      rank_and_select query papers k ≡ₚ papers).
Proof.
  intros [H0 Hk]. rewrite !RankFacts.rank_and_select_sorted_prefix.
  unfold Py.slice_to.
  rewrite (proj2 (Z.leb_le 0 k)) by exact H0.
  rewrite (proj2 (Z.leb_le 0 k')) by lia.
  split; [apply take_prefix_take; lia |].
  intros Hlen. rewrite take_ge by (rewrite length_sort_desc; lia).
  apply sort_desc_perm.
Qed.

Lemma rank_and_select_grows_witness :
  rank_and_select "graph" [Samples.graph; Samples.graph_neural] 1
  `prefix_of` rank_and_select "graph" [Samples.graph; Samples.graph_neural] 2.
Proof.
  apply (rank_and_select_grows "graph" [Samples.graph; Samples.graph_neural] 1 2).
  lia.
Defined.

End RankExtra.

(** ** The orchestrator: what reaches the response *)

Module PipelineExtra.
Import Research.

Lemma retrieve_sources_elem w query max_per_source p :
  p ∈ retrieve_sources w query max_per_source
  <-> exists items item,
        (World.search_arxiv w query max_per_source = Py.Ok items
         \/ World.search_crossref w query max_per_source = Py.Ok items)
        /\ item ∈ items /\ Paper_validate item = Py.Ok p.
Proof.
  unfold retrieve_sources. simpl. rewrite app_nil_r, elem_of_app.
  assert (forall items,
             p ∈ flat_map (fun item => match Paper_validate item with
                                       | Py.Ok q => [q]
                                       | Py.Raise _ => []
                                       end) items
             <-> exists item, item ∈ items /\ Paper_validate item = Py.Ok p) as Hflat.
  { intros items. rewrite list_elem_of_In, in_flat_map. split.
    - intros (item & Hin & Hp). exists item. split; [now apply list_elem_of_In |].
      destruct (Paper_validate item) as [q | e]; [| destruct Hp].
      destruct Hp as [-> | []]. reflexivity.
    - intros (item & Hin & Hv). exists item. split; [now apply list_elem_of_In |].
      rewrite Hv. now left. }
  split.
  - intros [H | H].
    + destruct (World.search_arxiv w query max_per_source) as [items | e] eqn:E;
        [| now apply elem_of_nil in H].
      apply Hflat in H as (item & Hin & Hv). exists items, item. auto.
    + destruct (World.search_crossref w query max_per_source) as [items | e] eqn:E;
        [| now apply elem_of_nil in H].
      apply Hflat in H as (item & Hin & Hv). exists items, item. auto.
  - intros (items & item & [E | E] & Hin & Hv); [left | right]; rewrite E;
      apply Hflat; eauto.
Qed.

(** X13: a paper is retrieved exactly when it is the validated form of a
    record returned by a source that answered; a source that raised
    contributes nothing and does not disturb the other: if Crossref fails,
    the result is the list of the valid arXiv records, in order. *)
Theorem retrieve_sources_isolates_failures
    (w : World.t) (query : string) (max_per_source : Z) :
  (forall p,
      p ∈ retrieve_sources w query max_per_source
      <-> exists items item,
            (World.search_arxiv w query max_per_source = Py.Ok items
             \/ World.search_crossref w query max_per_source = Py.Ok items)
            /\ item ∈ items /\ Paper_validate item = Py.Ok p)
  /\ (forall items e,
        World.search_arxiv w query max_per_source = Py.Ok items ->
        World.search_crossref w query max_per_source = Py.Raise e ->
        retrieve_sources w query max_per_source
        = omap (fun item => match Paper_validate item with
                            | Py.Ok p => Some p
                            | Py.Raise _ => None
                            end) items).
Proof.
  split; [intros p; apply retrieve_sources_elem |].
  intros items e Ha Hc. unfold retrieve_sources. simpl. rewrite Ha, Hc, !app_nil_r.
  clear. induction items as [| item items IH]; [reflexivity |].
  simpl. rewrite IH. now destruct (Paper_validate item).
Qed.

Lemma retrieve_sources_isolates_failures_witness :
  retrieve_sources Samples.one_hit "graph" 25
  = omap (fun item => match Paper_validate item with
                      | Py.Ok p => Some p
                      | Py.Raise _ => None
                      end)
      [RawItem.mk "arxiv" None (Some "graph") "" [] (Some 2020%Z)
         (Some "http://arxiv.org/abs/1") None None None].
Proof.
  apply (proj2 (retrieve_sources_isolates_failures Samples.one_hit "graph" 25)
           _ (Py.HTTPError "503 Service Unavailable")); reflexivity.
Defined.

(** X14: when the effective [top_k] is not negative, the number of selected
    papers is the smaller of [top_k] and the number of deduplicated
    retrieved papers; every selected paper is a retrieved paper; and the
    response carries the query unchanged. *)
Theorem run_research_selection
    (w : World.t) (query : string) (top_k : option Z)
    (provider_choice : option string) :
  (0 <= top_k_effective w top_k)%Z ->
  let r := run_research w query top_k provider_choice in
  let retrieved :=
    retrieve_sources w query
      (AppSettings.max_results_per_source (World.settings w)) in
  Z.of_nat (length (ResearchResponse.selected r))
  = Z.min (top_k_effective w top_k)
      (Z.of_nat (length (deduplicate_papers retrieved)))
  /\ (forall p, p ∈ ResearchResponse.selected r -> p ∈ retrieved)
  /\ ResearchResponse.query r = query.
Proof.
  intros Hk r retrieved. subst r retrieved. unfold run_research.
  destruct (retrieve_sources w query _) as [| p0 ps] eqn:E; simpl.
  - split; [| split; [intros p Hp; exact Hp | reflexivity]].
    change (deduplicate_papers []) with (@nil Paper.t). simpl. lia.
  - split; [| split; [| reflexivity]].
    + rewrite RankFacts.length_rank_and_select.
      now rewrite (proj2 (Z.leb_le 0 _) Hk).
    + intros p Hp. apply RankExtra.rank_and_select_elem in Hp.
      now apply DedupExtra.deduplicate_papers_elem in Hp.
Qed.

Lemma run_research_selection_witness :
  let r := run_research Samples.one_hit "graph" (Some 5%Z) None in
  let retrieved := retrieve_sources Samples.one_hit "graph" 25 in
  Z.of_nat (length (ResearchResponse.selected r))
  = Z.min 5 (Z.of_nat (length (deduplicate_papers retrieved)))
  /\ (forall p, p ∈ ResearchResponse.selected r -> p ∈ retrieved)
  /\ ResearchResponse.query r = "graph".
Proof.
  apply (run_research_selection Samples.one_hit "graph" (Some 5%Z) None).
  vm_compute. discriminate.
Defined.

(** X15: whatever goes wrong in the synthesis is absorbed: if no provider
    can be constructed for the given preference, or the provider's
    [generate] raises, the report is the fallback report; if [generate]
    returns, the report is the returned text. *)
Theorem synthesize_report_recovers
    (w : World.t) (query : string) (selected : list Paper.t)
    (provider_choice : option string) :
  (forall e,
      snd (Providers.get_default_llm_provider w provider_choice) = Py.Raise e ->
      synthesize_report w query selected provider_choice
      = synthesize_fallback query selected)
  /\ (forall llm e,
        snd (Providers.get_default_llm_provider w provider_choice) = Py.Ok llm ->
        Providers.generate w llm
          (build_synthesis_messages query (build_citations selected))
          None (2 # 10) None = Py.Raise e ->
        synthesize_report w query selected provider_choice
        = synthesize_fallback query selected)
  /\ (forall llm text,
        snd (Providers.get_default_llm_provider w provider_choice) = Py.Ok llm ->
        Providers.generate w llm
          (build_synthesis_messages query (build_citations selected))
          None (2 # 10) None = Py.Ok text ->
        synthesize_report w query selected provider_choice = text).
Proof.
  unfold synthesize_report. repeat split.
  - intros e ->. reflexivity.
  - intros llm e -> Hg. simpl. now rewrite Hg.
  - intros llm text -> Hg. simpl. now rewrite Hg.
Qed.

Lemma synthesize_report_recovers_witness :
  synthesize_report Worlds.offline "graph" [] (Some "OpenAI")
  = synthesize_fallback "graph" [].
Proof.
  apply (proj1 (synthesize_report_recovers Worlds.offline "graph" []
                  (Some "OpenAI"))
           (Py.RuntimeError "OPENAI_API_KEY is not set")).
  reflexivity.
Defined.

End PipelineExtra.

(** ** Stripping *)

Module StripExtra.
Import Text TextWords.

Lemma lstrip_by_parts p s :
  exists l,
    s = l +:+ lstrip_by p s
    /\ Forall (fun c => p c = true) (chars l)
    /\ (forall c, head (chars (lstrip_by p s)) = Some c -> p c = false).
Proof.
  induction s as [| c s (l & Hs & Hl & Hh)].
  - exists EmptyString. repeat split; [constructor | discriminate].
  - simpl lstrip_by. destruct (p c) eqn:Hc.
    + exists (String c l). split; [exact (f_equal (String c) Hs) |].
      split; [unfold chars; simpl; now constructor | exact Hh].
    + exists EmptyString. split; [reflexivity |].
      split; [constructor |]. unfold chars. simpl. now intros d [= <-].
Qed.

Lemma rstrip_by_parts p s :
  exists r,
    s = rstrip_by p s +:+ r
    /\ Forall (fun c => p c = true) (chars r)
    /\ (forall c, last (chars (rstrip_by p s)) = Some c -> p c = false).
Proof.
  induction s as [| c s (r & Hs & Hr & Hl)].
  - exists EmptyString. repeat split; [constructor | discriminate].
  - rewrite TextExtra.rstrip_by_cons.
    destruct (p c) eqn:Hc; simpl andb.
    + destruct (rstrip_by p s) as [| d t] eqn:Ht; simpl negb; cbv iota.
      * exists (String c r). split; [exact (f_equal (String c) Hs) |].
        split; [unfold chars; simpl; now constructor | discriminate].
      * exists r. split; [exact (f_equal (String c) Hs) |].
        split; [exact Hr |]. intros e He. apply Hl.
        unfold chars in *. simpl in *. exact He.
    + cbv iota. exists r. split; [exact (f_equal (String c) Hs) |].
      split; [exact Hr |]. intros e He.
      destruct (rstrip_by p s) as [| d t] eqn:Ht.
      * unfold chars in He. simpl in He. now injection He as <-.
      * apply Hl. unfold chars in *. simpl in *. exact He.
Qed.

Lemma rstrip_by_keeps_head p s c :
  head (chars s) = Some c -> p c = false ->
  head (chars (rstrip_by p s)) = Some c.
Proof.
  destruct s as [| d s]; [discriminate |].
  unfold chars. simpl. intros [= ->] Hc. rewrite Hc.
  now destruct (rstrip_by p s).
Qed.

Lemma rstrip_by_head p s c :
  head (chars (rstrip_by p s)) = Some c -> head (chars s) = Some c.
Proof.
  destruct s as [| d s]; [discriminate |].
  rewrite TextExtra.rstrip_by_cons.
  destruct (p d && negb (nonempty (rstrip_by p s))); [discriminate |].
  now unfold chars.
Qed.

(** [strip] removes whitespace from both ends and nothing else: the
    text is the stripped text between a run of whitespace on the left and
    one on the right, and the stripped text neither starts nor ends with
    whitespace. *)
Theorem strip_parts (s : string) :
  exists l r,
    s = l +:+ strip s +:+ r
    /\ Forall (fun c => is_space c = true) (chars l)
    /\ Forall (fun c => is_space c = true) (chars r)
    /\ (forall c, head (chars (strip s)) = Some c -> is_space c = false)
    /\ (forall c, last (chars (strip s)) = Some c -> is_space c = false).
Proof.
  destruct (lstrip_by_parts is_space s) as (l & Hs & Hl & Hh).
  destruct (rstrip_by_parts is_space (lstrip_by is_space s)) as (r & Ht & Hr & Hlast).
  exists l, r. unfold strip. split; [now rewrite <- Ht |].
  split; [exact Hl |]. split; [exact Hr |]. split; [| exact Hlast].
  intros c Hc. apply Hh. now apply rstrip_by_head in Hc.
Qed.

End StripExtra.

(** ** The provider factory: explicit names *)

Module ProviderExtra.
Import Providers ProviderSpec.

Lemma named_choice w preferred name :
  preferred = Some name -> Text.nonempty name = true ->
  resolve_choice w preferred = Some name.
Proof. intros -> Hn. unfold resolve_choice. simpl. now rewrite Hn. Qed.

(** X16: a non-empty preferred name wins over the configured default and
    is matched without regard to case.  The named provider is constructed
    and returned as it is: no log line, no fallback.  So "ollama" always
    yields the local-host provider, and "openai" or "together" without
    their key raise the constructor's error even when another provider
    would be available. *)
Theorem get_default_llm_provider_named
    (w : World.t) (preferred : option string) (name : string) :
  preferred = Some name ->
  Text.nonempty name = true ->
  (Text.lower name = "openai" ->
   get_default_llm_provider w preferred = ([], OpenAIProvider w))
  /\ (Text.lower name = "together" ->
      get_default_llm_provider w preferred = ([], TogetherProvider w))
  /\ (Text.lower name = "ollama" ->
      get_default_llm_provider w preferred
      = ([], Py.Ok (Ollama "llama3.1"
                      (Text.rstrip_by (Ascii.eqb "/"%char)
                         (AppSettings.ollama_base_url (World.settings w))))))
  /\ (Text.lower name = "openai" ->
      Py.truthy_str (AppSettings.openai_api_key (World.settings w)) = false ->
      snd (get_default_llm_provider w preferred)
      = Py.Raise (Py.RuntimeError "OPENAI_API_KEY is not set"))
  /\ (Text.lower name = "together" ->
      Py.truthy_str (AppSettings.together_api_key (World.settings w)) = false ->
      snd (get_default_llm_provider w preferred)
      = Py.Raise (Py.RuntimeError "TOGETHER_API_KEY is not set")).
Proof.
  intros Hp Hn. unfold get_default_llm_provider.
  rewrite (named_choice w preferred name Hp Hn), Hn.
  repeat split.
  - intros ->. reflexivity.
  - intros ->. reflexivity.
  - intros ->. reflexivity.
  - intros -> Hk. simpl. now apply ProviderFacts.OpenAIProvider_no_key.
  - intros -> Hk. simpl. now apply ProviderFacts.TogetherProvider_no_key.
Qed.

Lemma get_default_llm_provider_named_witness :
  snd (get_default_llm_provider Worlds.silent_openai (Some "Together"))
  = Py.Raise (Py.RuntimeError "TOGETHER_API_KEY is not set").
Proof.
  apply (get_default_llm_provider_named Worlds.silent_openai
           (Some "Together") "Together"); reflexivity.
Defined.

(** X17: a name that is none of "openai", "together", "ollama" (in any
    case) is ignored, whether it was passed or configured: the factory
    auto-detects as if no name were given, so it returns a provider and
    does not raise. *)
Theorem get_default_llm_provider_unknown_name
    (w : World.t) (preferred : option string) (name : string) :
  resolve_choice w preferred = Some name ->
  Text.lower name <> "openai" ->
  Text.lower name <> "together" ->
  Text.lower name <> "ollama" ->
  exists llm : LLMProvider,
    snd (get_default_llm_provider w preferred) = Py.Ok llm
    /\ first_ok [OpenAIProvider w; TogetherProvider w; OllamaProvider w] = Some llm
    /\ fst (get_default_llm_provider w preferred)
       = failures_before_ok
           [("OpenAI", OpenAIProvider w); ("Together", TogetherProvider w);
            ("Ollama", OllamaProvider w)].
Proof.
  intros Hc H1 H2 H3. unfold get_default_llm_provider. rewrite Hc.
  apply String.eqb_neq in H1, H2, H3. rewrite H1, H2, H3.
  assert ((if Text.nonempty name then @None (Py.result LLMProvider) else None) = None)
    as -> by (now destruct (Text.nonempty name)).
  destruct (OpenAIProvider w) as [o | e] eqn:Ho.
  - exists o. repeat split.
  - destruct (TogetherProvider w) as [t | e'] eqn:Ht.
    + exists t. repeat split.
    + eexists. repeat split.
Qed.

Lemma get_default_llm_provider_unknown_name_witness :
  exists llm : LLMProvider,
    snd (get_default_llm_provider Worlds.offline (Some "claude")) = Py.Ok llm
    /\ first_ok [OpenAIProvider Worlds.offline; TogetherProvider Worlds.offline;
                 OllamaProvider Worlds.offline] = Some llm
    /\ fst (get_default_llm_provider Worlds.offline (Some "claude"))
       = failures_before_ok
           [("OpenAI", OpenAIProvider Worlds.offline);
            ("Together", TogetherProvider Worlds.offline);
            ("Ollama", OllamaProvider Worlds.offline)].
Proof.
  apply (get_default_llm_provider_unknown_name Worlds.offline (Some "claude") "claude");
    [reflexivity | discriminate | discriminate | discriminate].
Defined.

(** X18: the base URL of the local-host provider is the configured URL
    without its trailing slashes: the configured URL is the base followed
    by slashes only, and the base does not end with a slash. *)
Theorem OllamaProvider_base_url (w : World.t) :
  exists base slashes,
    OllamaProvider w = Py.Ok (Ollama "llama3.1" base)
    /\ AppSettings.ollama_base_url (World.settings w) = base +:+ slashes
    /\ Forall (fun c => c = "/"%char) (TextWords.chars slashes)
    /\ last (TextWords.chars base) <> Some "/"%char.
Proof.
  destruct (StripExtra.rstrip_by_parts (Ascii.eqb "/"%char)
              (AppSettings.ollama_base_url (World.settings w)))
    as (r & Hs & Hr & Hl).
  eexists _, r. split; [reflexivity |]. split; [exact Hs |]. split.
  - eapply Forall_impl; [exact Hr |]. intros c Hc.
    symmetry. now apply Ascii.eqb_eq.
  - intros H. specialize (Hl _ H). discriminate.
Qed.

End ProviderExtra.

(** ** The arXiv client *)

Module ArxivExtra.
Import ArxivClient ClientSpec.

Lemma code_digit_char n : Text.code (digit_char n) = Z.to_nat (48 + n mod 10).
Proof.
  unfold Text.code, digit_char. apply nat_ascii_embedding.
  pose proof (Z.mod_pos_bound n 10). lia.
Qed.

Lemma is_digit_digit_char n : is_digit (digit_char n) = true.
Proof.
  unfold is_digit. rewrite code_digit_char.
  pose proof (Z.mod_pos_bound n 10).
  apply andb_true_intro. split; apply Nat.leb_le; lia.
Qed.

Lemma digit_value_digit_char n : digit_value (digit_char n) = (n mod 10)%Z.
Proof.
  unfold digit_value. rewrite code_digit_char.
  pose proof (Z.mod_pos_bound n 10). lia.
Qed.

Lemma digit_value_range c : is_digit c = true -> (0 <= digit_value c <= 9)%Z.
Proof.
  unfold is_digit, digit_value. intros H. apply andb_prop in H as [H1 H2].
  apply Nat.leb_le in H1, H2. lia.
Qed.

Lemma four_digits_value (n : Z) :
  (0 <= n <= 9999)%Z ->
  (1000 * (n / 1000 mod 10) + 100 * (n / 100 mod 10) + 10 * (n / 10 mod 10)
   + n mod 10 = n)%Z.
Proof.
  intros Hn.
  replace (n / 100)%Z with (n / 10 / 10)%Z
    by (rewrite Z.div_div by lia; reflexivity).
  replace (n / 1000)%Z with (n / 10 / 10 / 10)%Z
    by (rewrite !Z.div_div by lia; reflexivity).
  pose proof (Z.div_mod n 10 ltac:(lia)).
  pose proof (Z.div_mod (n / 10) 10 ltac:(lia)).
  pose proof (Z.div_mod (n / 10 / 10) 10 ltac:(lia)).
  pose proof (Z.mod_pos_bound n 10 ltac:(lia)).
  pose proof (Z.mod_pos_bound (n / 10) 10 ltac:(lia)).
  pose proof (Z.mod_pos_bound (n / 10 / 10) 10 ltac:(lia)).
  assert (0 <= n / 10 / 10 / 10 < 10)%Z as Hsmall.
  { rewrite !Z.div_div by lia. split.
    - apply Z.div_pos; lia.
    - apply Z.div_lt_upper_bound; lia. }
  rewrite (Z.mod_small _ _ Hsmall). lia.
Qed.

(** X19: [_extract_year] reads the year off a date that starts in the form
    YYYY-MM-DD, whatever follows; what it returns lies between 0 and 9999;
    no date or an empty one gives no year. *)
Theorem arxiv_extract_year_iso (dt : option string) (year month day : Z)
    (rest : string) :
  ((0 <= year <= 9999)%Z ->
   _extract_year (Some (iso_date year month day +:+ rest)) = Some year)
  /\ (forall y, _extract_year dt = Some y -> (0 <= y <= 9999)%Z)
  /\ _extract_year None = None
  /\ _extract_year (Some EmptyString) = None.
Proof.
  split; [| split; [| split; reflexivity]].
  - intros Hy.
    change (iso_date year month day +:+ rest)
      with (String (digit_char (year / 1000)) (String (digit_char (year / 100))
             (String (digit_char (year / 10)) (String (digit_char year)
               (String "-"%char
                 (String (digit_char (month / 10)) (String (digit_char month)
                   (String "-"%char
                     (String (digit_char (day / 10)) (String (digit_char day)
                       rest)))))))))).
    unfold _extract_year. cbn [list_ascii_of_string].
    rewrite !is_digit_digit_char. cbn [andb is_hyphen Ascii.eqb Bool.eqb].
    rewrite !digit_value_digit_char. f_equal.
    exact (four_digits_value year Hy).
  - intros y. unfold _extract_year. destruct dt as [s |]; [| discriminate].
    destruct (list_ascii_of_string s)
      as [| y1 [| y2 [| y3 [| y4 [| h1 [| m1 [| m2 [| h2 [| d1 [| d2 l]]]]]]]]]];
      try discriminate.
    destruct (is_digit y1) eqn:E1; [| discriminate].
    destruct (is_digit y2) eqn:E2; [| discriminate].
    destruct (is_digit y3) eqn:E3; [| discriminate].
    destruct (is_digit y4) eqn:E4; [| discriminate].
    simpl andb. destruct (_ && _); [| discriminate].
    intros [= <-].
    apply digit_value_range in E1, E2, E3, E4. lia.
Qed.

Lemma arxiv_extract_year_iso_witness :
  _extract_year (Some (iso_date 2017 6 12 +:+ "T17:57:34Z")) = Some 2017%Z.
Proof.
  apply (arxiv_extract_year_iso None 2017 6 12 "T17:57:34Z"). lia.
Defined.

Example extract_year_not_anchored_elsewhere :
  _extract_year (Some " 2017-06-12") = None
  /\ _extract_year (Some "2017-6-12") = None
  /\ _extract_year (Some "2017-06-12T17:57:34Z") = Some 2017%Z.
Proof. repeat split. Qed.

(** *** The loop over the links *)

Lemma link_step_picks st l :
  link_step st l
  = (if is_pdf_link l then Link.href l else fst st,
     if is_alternate l then Link.href l else snd st).
Proof. destruct st. reflexivity. Qed.

Lemma last_href_cons pick l links otherwise :
  last_href pick (l :: links) otherwise
  = last_href pick links (if pick l then Link.href l else otherwise).
Proof.
  unfold last_href. simpl. destruct (pick l); [| reflexivity].
  rewrite last_cons. now destruct (last (List.filter pick links)).
Qed.

Lemma link_fold links st :
  fold_left link_step links st
  = (last_href is_pdf_link links (fst st), last_href is_alternate links (snd st)).
Proof.
  revert st. induction links as [| l links IH]; intros st.
  - now destruct st.
  - simpl fold_left. rewrite IH, link_step_picks, !last_href_cons. reflexivity.
Qed.

Lemma last_filter_elem {A} (f : A -> bool) l x :
  last (List.filter f l) = Some x -> x ∈ l /\ f x = true.
Proof.
  intros H. apply last_Some_elem_of in H.
  apply list_elem_of_In, filter_In in H as [H1 H2].
  split; [now apply list_elem_of_In | exact H2].
Qed.

Lemma last_filter_none {A} (f : A -> bool) l :
  last (List.filter f l) = None -> forall x, x ∈ l -> f x = false.
Proof.
  intros H x Hx. apply last_None in H.
  destruct (f x) eqn:E; [| reflexivity].
  assert (In x (List.filter f l)) as Hin
    by (apply filter_In; split; [now apply list_elem_of_In | exact E]).
  rewrite H in Hin. destruct Hin.
Qed.

Lemma record_links entry :
  RawItem.pdf_url (record entry) = last_href is_pdf_link (Entry.links entry) None
  /\ RawItem.url (record entry)
     = last_href is_alternate (Entry.links entry) (Entry.id entry).
Proof.
  unfold record. rewrite link_fold. simpl. split; [reflexivity |].
  unfold last_href. destruct (last _) as [l |] eqn:E; [| reflexivity].
  apply last_filter_elem in E as [_ E]. unfold is_alternate in E.
  apply andb_prop in E as [_ E]. now rewrite E.
Qed.

(** X20: the record built for an arXiv entry takes its url from the last
    "alternate" link with a non-empty href, else from the entry id, and its
    pdf_url from the last "related" link whose href ends in ".pdf"; its
    author names are non-empty and its title is stripped.  The record
    passes the validation of [Paper] exactly when the entry has an id or
    such an alternate link. *)
Theorem arxiv_record_fields (entry : Entry.t) :
  RawItem.url (record entry)
  = last_href is_alternate (Entry.links entry) (Entry.id entry)
  /\ RawItem.pdf_url (record entry)
     = last_href is_pdf_link (Entry.links entry) None
  /\ (forall u, RawItem.pdf_url (record entry) = Some u -> endswith u ".pdf" = true)
  /\ Forall (fun a => Text.nonempty a = true) (RawItem.authors (record entry))
  /\ RawItem.title (record entry)
     = Some (Text.strip (get_or_empty (Entry.title entry)))
  /\ ((exists p, Paper_validate (record entry) = Py.Ok p)
      <-> Entry.id entry <> None
          \/ exists l, l ∈ Entry.links entry /\ is_alternate l = true).
Proof.
  destruct (record_links entry) as [Hpdf Hurl].
  split; [exact Hurl |]. split; [exact Hpdf |].
  split; [| split; [| split]].
  - intros u. rewrite Hpdf. unfold last_href.
    destruct (last _) as [l |] eqn:E; [| discriminate].
    apply last_filter_elem in E as [_ E]. unfold is_pdf_link in E.
    apply andb_prop in E as [_ E]. intros Hu. rewrite Hu in E.
    destruct u; exact E.

  - unfold record. destruct (fold_left _ _ _). simpl.
    induction (Entry.authors entry) as [| [a |] l IH]; simpl; [constructor | | exact IH].
    destruct (Text.nonempty a) eqn:Ha; simpl; [constructor; assumption | exact IH].
  - unfold record. now destruct (fold_left _ _ _).
  - assert (RawItem.title (record entry)
            = Some (Text.strip (get_or_empty (Entry.title entry)))) as Ht
      by (unfold record; now destruct (fold_left _ _ _)).
    unfold Paper_validate. rewrite Ht, Hurl. unfold last_href.
    destruct (last _) as [l |] eqn:E.
    + pose proof (last_filter_elem _ _ _ E) as [Hin Hl].
      assert (exists u, Link.href l = Some u) as [u Hu].
      { unfold is_alternate in Hl. apply andb_prop in Hl as [_ Hl].
        destruct (Link.href l) as [u |]; [now exists u | discriminate]. }
      rewrite Hu. split; [intros _; right; now exists l | intros _; eauto].
    + pose proof (last_filter_none _ _ E) as Hnone. split.
      * intros [p Hp]. left. destruct (Entry.id entry); [discriminate | discriminate].
      * intros [Hid | (l & Hin & Hl)].
        -- destruct (Entry.id entry) as [i |]; [eauto | contradiction].
        -- rewrite (Hnone l Hin) in Hl. discriminate.
Qed.

Example arxiv_record_of_entry :
  record (Entry.mk (Some "http://arxiv.org/abs/1706.03762v7")
            (Some " Attention Is All You Need ") (Some "We propose ...")
            [Some "A. Vaswani"; Some ""; None]
            [Link.mk (Some "alternate") (Some "http://arxiv.org/abs/1706.03762v7");
             Link.mk (Some "related") (Some "http://arxiv.org/pdf/1706.03762v7.pdf");
             Link.mk (Some "related") (Some "http://dx.doi.org/10.1/x")]
            (Some "2017-06-12T17:57:34Z") None)
  = RawItem.mk "arxiv" (Some "http://arxiv.org/abs/1706.03762v7")
      (Some "Attention Is All You Need") "We propose ..." ["A. Vaswani"]
      (Some 2017%Z) (Some "http://arxiv.org/abs/1706.03762v7")
      (Some "http://arxiv.org/pdf/1706.03762v7.pdf") None None.
Proof. vm_compute. reflexivity. Qed.

End ArxivExtra.

Module CrossrefExtra.
Import CrossrefClient ClientSpec.

(** *** Tags *)

Lemma append_assoc (a b c : string) : (a +:+ b) +:+ c = a +:+ (b +:+ c).
Proof.
  induction a as [| x a IH]; [reflexivity |]. exact (f_equal (String x) IH).
Qed.

Lemma has_char_cons c d s :
  has_char c (String d s) = Ascii.eqb d c || has_char c s.
Proof.
  unfold has_char. cbn [list_ascii_of_string existsb].
  now rewrite Ascii.eqb_sym.
Qed.

Lemma TAG_RE_sub_from_plain s :
  has_char "<" s = false -> TAG_RE_sub_from None s = s.
Proof.
  induction s as [| c s IH]; [reflexivity |].
  rewrite has_char_cons. cbn [TAG_RE_sub_from].
  destruct (Ascii.eqb c "<"); [discriminate |].
  intros H. now rewrite IH.
Qed.

Lemma TAG_RE_sub_from_prefix pre s :
  has_char "<" pre = false ->
  TAG_RE_sub_from None (pre +:+ s) = pre +:+ TAG_RE_sub_from None s.
Proof.
  induction pre as [| c pre IH]; [reflexivity |].
  rewrite has_char_cons.
  change (String c pre +:+ s) with (String c (pre +:+ s)).
  cbn [TAG_RE_sub_from].
  destruct (Ascii.eqb c "<"); [discriminate |].
  intros H. rewrite IH by exact H. reflexivity.
Qed.

Lemma TAG_RE_sub_from_inside buf t post :
  has_char ">" t = false ->
  buf +:+ t <> EmptyString ->
  TAG_RE_sub_from (Some buf) (t +:+ String ">" post)
  = String " " (TAG_RE_sub_from None post).
Proof.
  revert buf. induction t as [| c t IH]; intros buf Ht Hne.
  - change (EmptyString +:+ String ">" post) with (String ">" post).
    cbn [TAG_RE_sub_from]. rewrite Ascii.eqb_refl.
    destruct buf; [| reflexivity].
    now contradiction Hne.
  - rewrite has_char_cons in Ht.
    destruct (Ascii.eqb c ">") eqn:E; [discriminate |].
    change (String c t +:+ String ">" post) with (String c (t +:+ String ">" post)).
    cbn [TAG_RE_sub_from]. rewrite E. apply IH; [exact Ht |].
    rewrite append_assoc. now destruct buf.
Qed.

Lemma TAG_RE_sub_from_open buf t :
  has_char ">" t = false ->
  TAG_RE_sub_from (Some buf) t = String "<" (buf +:+ t).
Proof.
  revert buf. induction t as [| c t IH]; intros buf.
  - intros _. cbn [TAG_RE_sub_from]. f_equal.
    induction buf as [| x buf IHb]; [reflexivity |].
    exact (f_equal (String x) IHb).
  - rewrite has_char_cons.
    destruct (Ascii.eqb c ">") eqn:E; [discriminate |].
    intros Ht. cbn [TAG_RE_sub_from]. rewrite E, IH by exact Ht.
    now rewrite append_assoc.
Qed.

(** X21: text without ["<"] passes the tag substitution unchanged; a tag,
    that is ["<"], one or more characters other than [">"], and [">"],
    becomes one space, whatever it holds; ["<>"] is no tag; and a ["<"]
    that no [">"] follows stays with the text after it. *)
Theorem TAG_RE_sub_tags (pre t post : string) :
  has_char "<" pre = false ->
  has_char ">" t = false ->
  TAG_RE_sub pre = pre
  /\ (t <> EmptyString ->
      TAG_RE_sub (pre +:+ String "<" (t +:+ String ">" post))
      = pre +:+ String " " (TAG_RE_sub post))
  /\ TAG_RE_sub (pre +:+ String "<" (String ">" post))
     = pre +:+ String "<" (String ">" (TAG_RE_sub post))
  /\ TAG_RE_sub (pre +:+ String "<" t) = pre +:+ String "<" t.
Proof.
  intros Hpre Ht. unfold TAG_RE_sub.
  split; [exact (TAG_RE_sub_from_plain _ Hpre) |].
  split; [| split].
  - intros Hne. rewrite TAG_RE_sub_from_prefix by exact Hpre.
    f_equal. cbn [TAG_RE_sub_from]. rewrite Ascii.eqb_refl.
    now apply TAG_RE_sub_from_inside.
  - rewrite TAG_RE_sub_from_prefix by exact Hpre. reflexivity.
  - rewrite TAG_RE_sub_from_prefix by exact Hpre.
    f_equal. cbn [TAG_RE_sub_from]. rewrite Ascii.eqb_refl.
    now rewrite TAG_RE_sub_from_open.
Qed.

Lemma TAG_RE_sub_tags_witness :
  TAG_RE_sub ("a " +:+ String "<" ("i x=1" +:+ String ">" "b</i> <>"))
  = "a " +:+ String " " (TAG_RE_sub "b</i> <>").
Proof.
  apply (proj1 (proj2 (TAG_RE_sub_tags "a " "i x=1" "b</i> <>" eq_refl eq_refl))).
  discriminate.
Defined.

Lemma cut_at c s :
  has_char c s = false
  \/ exists pre post,
       s = pre +:+ String c post /\ has_char c pre = false
       /\ (String.length post < String.length s)%nat.
Proof.
  induction s as [| d s IH]; [now left |].
  rewrite has_char_cons. destruct (Ascii.eqb d c) eqn:E.
  - right. apply Ascii.eqb_eq in E. subst d.
    exists EmptyString, s. repeat split. simpl. lia.
  - destruct IH as [IH | (pre & post & -> & Hpre & Hlen)]; [now left |].
    right. exists (String d pre), post. split; [reflexivity |].
    split; [now rewrite has_char_cons, E |].
    simpl. lia.
Qed.

Lemma has_char_app c a b :
  has_char c (a +:+ b) = has_char c a || has_char c b.
Proof.
  induction a as [| d a IH]; [reflexivity |].
  change (String d a +:+ b) with (String d (a +:+ b)).
  now rewrite !has_char_cons, IH, orb_assoc.
Qed.

Lemma TAG_RE_sub_from_idempotent n :
  forall s, (String.length s < n)%nat ->
  TAG_RE_sub_from None (TAG_RE_sub_from None s) = TAG_RE_sub_from None s.
Proof.
  induction n as [| n IH]; intros s Hn; [lia |].
  destruct (cut_at "<" s) as [Hs | (pre & rest & -> & Hpre & Hlen)].
  { rewrite (TAG_RE_sub_from_plain _ Hs). exact (TAG_RE_sub_from_plain _ Hs). }
  rewrite TAG_RE_sub_from_prefix by exact Hpre.
  cbn [TAG_RE_sub_from]. rewrite Ascii.eqb_refl.
  destruct (cut_at ">" rest) as [Hr | (t & post & -> & Ht & Hlen')].
  { rewrite TAG_RE_sub_from_open by exact Hr.
    rewrite TAG_RE_sub_from_prefix by exact Hpre.
    cbn [TAG_RE_sub_from]. rewrite Ascii.eqb_refl.
    now rewrite TAG_RE_sub_from_open. }
  assert (TAG_RE_sub_from None (TAG_RE_sub_from None post)
          = TAG_RE_sub_from None post) as Hpost by (apply IH; lia).
  destruct t as [| c t].
  - change (EmptyString +:+ String ">" post) with (String ">" post).
    cbn [TAG_RE_sub_from]. rewrite Ascii.eqb_refl.
    rewrite TAG_RE_sub_from_prefix by exact Hpre.
    cbn [TAG_RE_sub_from]. rewrite !Ascii.eqb_refl.
    now rewrite Hpost.
  - rewrite TAG_RE_sub_from_inside by (exact Ht || discriminate).
    rewrite TAG_RE_sub_from_prefix by exact Hpre.
    cbn [TAG_RE_sub_from].
    change (Ascii.eqb " " "<") with false. cbn iota.
    now rewrite Hpost.
Qed.

(** X22: removing the tags twice gives what removing them once gives: what
    the substitution leaves holds no tag. *)
Theorem TAG_RE_sub_idempotent (s : string) :
  TAG_RE_sub (TAG_RE_sub s) = TAG_RE_sub s.
Proof.
  unfold TAG_RE_sub.
  apply (TAG_RE_sub_from_idempotent (S (String.length s))). lia.
Qed.

(** *** The abstract *)









(** *** The records *)

Lemma record_outcome unescape it :
  (empty_container_title it = true /\ record unescape it = IndexError)
  \/ (empty_container_title it = false
      /\ exists r, record unescape it = Returned r
         /\ RawItem.doi r = Item.DOI it
         /\ RawItem.url r = Some (Py.str_or (Item.URL it) "")
         /\ exists p, Paper_validate r = Py.Ok p).
Proof.
  unfold record, venue, empty_container_title.
  destruct (Item.container_title it) as [[| first rest] |].
  - now left.
  - right. split; [reflexivity |]. eexists. split; [reflexivity |].
    cbn. repeat split. eauto.
  - right. split; [reflexivity |]. eexists. split; [reflexivity |].
    cbn. repeat split. eauto.
Qed.

(** X24: the conversion of the Crossref items raises [IndexError] exactly
    when some item has an empty ["container-title"] list, and then no
    record is returned at all.  Otherwise it returns one record per item,
    in order, each with the DOI of its item, a string as url (empty when
    the item has no URL), and each accepted by the validation of
    [Paper]. *)
Theorem crossref_records_outcome (unescape : string -> string)
    (items : list Item.t) :
  (existsb empty_container_title items = true ->
   records unescape items = IndexError)
  /\ (existsb empty_container_title items = false ->
      exists rs,
        records unescape items = Returned rs
        /\ map RawItem.doi rs = map Item.DOI items
        /\ map RawItem.url rs
           = map (fun it => Some (Py.str_or (Item.URL it) "")) items
        /\ Forall (fun r => exists p, Paper_validate r = Py.Ok p) rs).
Proof.
  induction items as [| it items [IHbad IHgood]].
  - split; [discriminate |]. intros _. exists []. now repeat split.
  - cbn [existsb records].
    destruct (record_outcome unescape it)
      as [[He Hr] | [He (r & Hr & Hdoi & Hurl & Hval)]]; rewrite He, Hr.
    + split; [reflexivity | discriminate].
    + cbn [orb]. split.
      * intros H. now rewrite (IHbad H).
      * intros H. destruct (IHgood H) as (rs & -> & Hd & Hu & Hv).
        exists (r :: rs). split; [reflexivity |].
        cbn [map]. rewrite Hd, Hu, Hdoi, Hurl.
        repeat split. constructor; assumption.
Qed.

Lemma crossref_records_outcome_witness :
  records (fun s => s)
    [Item.mk None (Some "10.1/x") None (Some ["T"]) None None None None;
     Item.mk None None None None None None (Some []) None]
  = IndexError.
Proof.
  apply (proj1 (crossref_records_outcome (fun s => s)
    [Item.mk None (Some "10.1/x") None (Some ["T"]) None None None None;
     Item.mk None None None None None None (Some []) None])).
  reflexivity.
Defined.

End CrossrefExtra.
